(** * run_blender_glass.py: the stereo DIC glass-window rendering script

    The script [src/blender/run_blender_glass.py] is a straight-line
    sequence of calls into collaborators it does not own (pyvale,
    mooseherder, bpy), with one branch on the string [stereo_setup] and
    one [raise].  It is embedded as a finite program tree over the calls
    it issues; a host supplies the meaning of every call as a transformer
    of a world state that may fail with an exception. *)

From Stdlib Require Import ZArith QArith Ascii String List Bool.
From stdpp Require Import base strings gmap list.

Local Open Scope string_scope.
Local Open Scope list_scope.

(** ** Values passed between the script and its collaborators

    The script computes with none of its numbers: it only passes them on.
    Integer literals are kept in [Z], and float literals in [Q] as the
    decimal fractions the source writes. *)

(** Python objects owned by a collaborator are known to the script only by
    reference. *)
Definition Ref : Type := positive.

(** [pathlib.Path]: a path handed out by a collaborator, or the script's
    [base / "segment"]. *)
Inductive Path : Type :=
| PathOf (s : string)
| PathJoin (p : Path) (segment : string).

(** [scipy.spatial.transform.Rotation.from_euler(seq, angles, degrees)]. *)
Record Rotation : Type := from_euler
  { rot_seq : string; rot_angles : list Q; rot_degrees : bool }.

(** Keyword arguments of [sens.CameraData(...)] as the script gives them. *)
Record CameraSpec : Type :=
  { pixels_num : list Z;
    pixels_size : list Q;
    pos_world : list Z;
    rot_world : Rotation;
    roi_cent_world : list Z;
    focal_length : Q }.

(** [blender.LightType]; the script names the member [POINT] only. *)
Inductive LightType : Type :=
| POINT
| LightType_member (name : string).

(** Keyword arguments of [blender.LightData(...)]. *)
Record LightSpec : Type :=
  { light_type : LightType;
    light_pos_world : list Z;
    light_rot_world : Rotation;
    energy : Z }.

(** Python exceptions, by class. *)
Inductive Exc : Type :=
| ValueError (msg : string)
| KeyError (key : string)
| AttributeError (msg : string)
| ReferenceError (msg : string)
| OtherError (cls msg : string).

(** ** The calls the script issues *)

(** Calls into pyvale, mooseherder, pathlib and the builtin [print]; the
    arguments are those of the source, keyword by keyword.  The [attr_]
    calls are the reads of [stereo_system.cam_data_0],
    [stereo_system.cam_data_1] and [render_data.base_dir]. *)
Inductive ExtCall : Type :=
| render_mechanical_3d_path
| dic_pattern_5mpx_path
| Path_cwd
| ExodusReader (output_file : Path)
| read_all_sim_data (reader : Ref)
| scale_length_units (scale : Q) (sim_data : Ref) (disp_comps : list string)
| create_render_mesh (sim_data : Ref) (field_render_keys : list string)
                     (sim_spat_dim : Z) (field_disp_keys : list string)
| Scene
| add_part (scene render_mesh : Ref) (sim_spat_dim : Z)
| move_blender_obj (part : Ref) (pos_world : list Z)
| rotate_blender_obj (part : Ref) (rot_world : Rotation)
| CameraData (spec : CameraSpec)
| symmetric_stereo_cameras (cam_data_0 : Ref) (stereo_angle : Q)
| faceon_stereo_cameras (cam_data_0 : Ref) (stereo_angle : Q)
| add_stereo_system (scene stereo_system : Ref)
| save_calibration (stereo_system : Ref) (base_dir : Path)
| LightData (spec : LightSpec)
| add_light (scene light_data : Ref)
| MaterialData
| calculate_mm_px_resolution (cam_data : Ref)
| add_speckle (scene part : Ref) (speckle_path : Path) (mat_data : Ref)
              (mm_px_resolution : Q)
| attr_cam_data_0 (stereo_system : Ref)
| attr_cam_data_1 (stereo_system : Ref)
| RenderData (cam_data : Ref * Ref) (base_dir : Path) (threads samples : Z)
| render_deformed_images (scene render_mesh : Ref) (sim_spat_dim : Z)
                         (render_data part : Ref) (stage_image : bool)
| attr_base_dir (render_data : Ref)
| print (label : string) (p : Path)
| save_blender_file (base_dir : Path) (override : bool).

(** References into [bpy.data].  The script resolves data-blocks, nodes and
    sockets by name and never renames or removes one, so a reference is the
    chain of names it was reached by. *)
Abbreviation MatRef := string (only parsing).
Abbreviation ObjRef := string (only parsing).
Record NodeRef : Type := { nr_material : MatRef; nr_node : string }.
Inductive SocketSide : Type := Input | Output.
Record SocketRef : Type :=
  { sr_node : NodeRef; sr_side : SocketSide; sr_name : string }.

(** Operations on [bpy.data], one per subscript, attribute read, attribute
    write or method call of lines 137-145. *)
Inductive BpyCall : Type :=
| materials_new (name : string)
| materials_getitem (name : string)
| set_use_nodes (m : MatRef) (value : bool)
| node_tree_nodes (m : MatRef)
| nodes_new (nodes : MatRef) (type : string)
| nodes_getitem (nodes : MatRef) (name : string)
| inputs_getitem (n : NodeRef) (name : string)
| outputs_getitem (n : NodeRef) (name : string)
| set_default_value (s : SocketRef) (value : Q)
| node_tree_links (m : MatRef)
| links_new (links : MatRef) (input output : SocketRef)
| objects_getitem (name : string)
| set_active_material (o : ObjRef) (m : MatRef).

Inductive Call : Type :=
| Ext (c : ExtCall)
| Bpy (c : BpyCall).

Coercion Ext : ExtCall >-> Call.
Coercion Bpy : BpyCall >-> Call.

(** What a call hands back when it does not raise.  Results have the
    shape the script uses them in: [add_stereo_system] returns the pair
    that line 110 unpacks, the path functions return paths. *)
Definition ExtRes (c : ExtCall) : Type :=
  match c with
  | render_mechanical_3d_path | dic_pattern_5mpx_path | Path_cwd
  | attr_base_dir _ => Path
  | add_stereo_system _ _ => (Ref * Ref)%type
  | calculate_mm_px_resolution _ => Q
  | move_blender_obj _ _ | rotate_blender_obj _ _ | save_calibration _ _
  | add_speckle _ _ _ _ _ | render_deformed_images _ _ _ _ _ _
  | print _ _ | save_blender_file _ _ => unit
  | _ => Ref
  end.

Definition BpyRes (c : BpyCall) : Type :=
  match c with
  | materials_new _ | materials_getitem _ | node_tree_nodes _
  | node_tree_links _ => MatRef
  | nodes_new _ _ | nodes_getitem _ _ => NodeRef
  | inputs_getitem _ _ | outputs_getitem _ _ => SocketRef
  | objects_getitem _ => ObjRef
  | set_use_nodes _ _ | set_default_value _ _ | links_new _ _ _
  | set_active_material _ _ => unit
  end.

Definition Res (c : Call) : Type :=
  match c with
  | Ext c => ExtRes c
  | Bpy c => BpyRes c
  end.

(** ** Programs over calls *)

(** A Python statement sequence: return, [raise], a call followed by the
    rest of the program, or [try: body except: handler] followed by the
    rest. *)
Inductive Prog : Type -> Type :=
| Ret {R : Type} (r : R) : Prog R
| Raise {R : Type} (e : Exc) : Prog R
| Vis {R : Type} (c : Call) (k : Res c -> Prog R) : Prog R
| Try {A R : Type} (body : Prog A) (handler : Exc -> Prog A)
      (k : A -> Prog R) : Prog R.

Fixpoint bind {A B : Type} (p : Prog A) : (A -> Prog B) -> Prog B :=
  match p in Prog T return (T -> Prog B) -> Prog B with
  | Ret r => fun f => f r
  | Raise e => fun _ => Raise e
  | Vis c k => fun f => Vis c (fun x => bind (k x) f)
  | Try body handler k => fun f => Try body handler (fun a => bind (k a) f)
  end.

Definition call (c : Call) : Prog (Res c) := Vis c Ret.

Declare Scope prog_scope.
Delimit Scope prog_scope with prog.
Notation "x <- p ;; q" := (bind p (fun x => q))
  (at level 100, p at next level, right associativity) : prog_scope.
Notation "p ;;; q" := (bind p (fun _ => q))
  (at level 100, q at level 200, right associativity) : prog_scope.
Local Open Scope prog_scope.

(** ** The script *)

(** The literals the script fixes inline and that a user edits: the
    stereo-rig selector, the camera, the light, the glass index of
    refraction and the renderer's thread and sample counts. *)
Record Config : Type :=
  { stereo_setup : string;
    cam_spec : CameraSpec;
    light_spec : LightSpec;
    glass_ior : Q;
    render_threads : Z;
    render_samples : Z }.

(** Lines 90-95, 98, 114-118, 141, 160-161 as written. *)
Definition source_config : Config :=
  {| stereo_setup := "faceon";
     cam_spec :=
       {| pixels_num := [5328; 4608]%Z;
          pixels_size := [0.00345; 0.00345]%Q;
          pos_world := [0; 0; 400]%Z;
          rot_world := from_euler "xyz" [0; 0; 0]%Q false;
          roi_cent_world := [0; 0; 0]%Z;
          focal_length := 15.0%Q |};
     light_spec :=
       {| light_type := POINT;
          light_pos_world := [200; 0; 200]%Z;
          light_rot_world := from_euler "xyz" [0; 0.8; 0]%Q false;
          energy := 2%Z |};
     glass_ior := 1.3777%Q;
     render_threads := 8%Z;
     render_samples := 40%Z |}.

Definition disp_comps : list string := ["disp_x"; "disp_y"; "disp_z"].

(** Lines 137-144, "Adding the glass material". *)
Definition new_glass_material (ior : Q) : Prog unit :=
  _ <- call (materials_new "Material.001") ;;
  m <- call (materials_getitem "Material.001") ;;
  call (set_use_nodes m true) ;;;
  m <- call (materials_getitem "Material.001") ;;
  mat_nodes <- call (node_tree_nodes m) ;;
  glass <- call (nodes_new mat_nodes "ShaderNodeBsdfGlass") ;;
  s <- call (inputs_getitem glass "IOR") ;;
  call (set_default_value s ior) ;;;
  m <- call (materials_getitem "Material.001") ;;
  ns <- call (node_tree_nodes m) ;;
  n <- call (nodes_getitem ns "Material Output") ;;
  inp <- call (inputs_getitem n "Surface") ;;
  m <- call (materials_getitem "Material.001") ;;
  ns <- call (node_tree_nodes m) ;;
  n <- call (nodes_getitem ns "Glass BSDF") ;;
  outp <- call (outputs_getitem n "BSDF") ;;
  m <- call (materials_getitem "Material.001") ;;
  ls <- call (node_tree_links m) ;;
  call (links_new ls inp outp).

(** Line 145: the right-hand side is evaluated first, then the target. *)
Definition assign_glass_material : Prog unit :=
  m <- call (materials_getitem "Material.001") ;;
  o <- call (objects_getitem "Part.001") ;;
  call (set_active_material o m).

(** Lines 33-183. *)
Definition script (cfg : Config) : Prog unit :=
  data_path1 <- call render_mechanical_3d_path ;;
  reader1 <- call (ExodusReader data_path1) ;;
  sim_data1 <- call (read_all_sim_data reader1) ;;
  cwd <- call Path_cwd ;;
  let data_path2 := PathJoin cwd "moose/input/circular_glass_out.e" in
  reader2 <- call (ExodusReader data_path2) ;;
  sim_data2 <- call (read_all_sim_data reader2) ;;
  sim_data1 <- call (scale_length_units 1000.0 sim_data1 disp_comps) ;;
  sim_data2 <- call (scale_length_units 1000.0 sim_data2 disp_comps) ;;
  render_mesh1 <-
    call (create_render_mesh sim_data1 ["disp_y"; "disp_x"] 3 disp_comps) ;;
  render_mesh2 <-
    call (create_render_mesh sim_data2 ["disp_y"; "disp_x"] 3 disp_comps) ;;
  cwd <- call Path_cwd ;;
  let base_dir := PathJoin cwd "blender/glass" in
  scene <- call Scene ;;
  part <- call (add_part scene render_mesh1 3) ;;
  window <- call (add_part scene render_mesh2 3) ;;
  let window_location := [0; 0; 200]%Z in
  call (move_blender_obj window window_location) ;;;
  let part_rotation := from_euler "xyz" [0; 0; 0]%Q true in
  call (rotate_blender_obj part part_rotation) ;;;
  cam_data_0 <- call (CameraData (cam_spec cfg)) ;;
  stereo_system <-
    (if String.eqb (stereo_setup cfg) "symmetric" then
       call (symmetric_stereo_cameras cam_data_0 15.0)
     else if String.eqb (stereo_setup cfg) "faceon" then
       call (faceon_stereo_cameras cam_data_0 10.0)
     else
       Raise (ValueError ("Unknown stereo_setup: " ++ stereo_setup cfg))) ;;
  cams <- call (add_stereo_system scene stereo_system) ;;
  let '(cam0, cam1) := cams in
  call (save_calibration stereo_system base_dir) ;;;
  light_data <- call (LightData (light_spec cfg)) ;;
  light <- call (add_light scene light_data) ;;
  material_data <- call MaterialData ;;
  speckle_path <- call dic_pattern_5mpx_path ;;
  mm_px_resolution <- call (calculate_mm_px_resolution cam_data_0) ;;
  call (add_speckle scene part speckle_path material_data mm_px_resolution) ;;;
  new_glass_material (glass_ior cfg) ;;;
  assign_glass_material ;;;
  c0 <- call (attr_cam_data_0 stereo_system) ;;
  c1 <- call (attr_cam_data_1 stereo_system) ;;
  render_data <-
    call (RenderData (c0, c1) base_dir (render_threads cfg)
                     (render_samples cfg)) ;;
  call (render_deformed_images scene render_mesh2 3 render_data window false) ;;;
  p <- call (attr_base_dir render_data) ;;
  call (print "Save directory of the image:" (PathJoin p "blenderimages")) ;;;
  call (save_blender_file base_dir true).

(** ** Running a program against a host *)

Section Semantics.
Context {W : Type}.

(** A host gives every call its effect on the world and either a result
    or the exception the call raises; a raising call may still have
    changed the world. *)
Definition Handler : Type := forall c : Call, W -> (Exc + Res c) * W.

(** How a run ends: normally, with an exception raised inside a call, or
    with an exception raised by a [raise] statement of the program. *)
Inductive Outcome (R : Type) : Type :=
| Done (r : R)
| CallFailed (c : Call) (e : Exc)
| ScriptRaised (e : Exc).

(** One issued call: the world it found, what it returned or raised, and
    the world it left. *)
Record Event : Type :=
  { ev_pre : W; ev_call : Call; ev_result : Exc + Res ev_call; ev_post : W }.

Record Run (R : Type) : Type :=
  { outcome : Outcome R; final : W; trace : list Event }.

Arguments Done {R} r.
Arguments CallFailed {R} c e.
Arguments ScriptRaised {R} e.
Arguments outcome {R} _.
Arguments final {R} _.
Arguments trace {R} _.

(** Put an issued call in front of the run that followed it. *)
Definition after {R : Type} (ev : Event) (r : Run R) : Run R :=
  match r with
  | {| outcome := o; final := w; trace := t |} =>
      {| outcome := o; final := w; trace := ev :: t |}
  end.

(** Continue a run that ended normally; a failed run stays failed. *)
Definition and_then {A R : Type} (r : Run A) (k : A -> W -> Run R) : Run R :=
  match r with
  | {| outcome := Done a; final := w; trace := t |} =>
      match k a w with
      | {| outcome := o; final := w'; trace := t' |} =>
          {| outcome := o; final := w'; trace := t ++ t' |}
      end
  | {| outcome := CallFailed c e; final := w; trace := t |} =>
      {| outcome := CallFailed c e; final := w; trace := t |}
  | {| outcome := ScriptRaised e; final := w; trace := t |} =>
      {| outcome := ScriptRaised e; final := w; trace := t |}
  end.

(** Divert a failed run into its handler; a normal run is left alone. *)
Definition or_else {A : Type} (r : Run A) (k : Exc -> W -> Run A) : Run A :=
  match r with
  | {| outcome := Done a; final := w; trace := t |} => r
  | {| outcome := CallFailed _ e; final := w; trace := t |}
  | {| outcome := ScriptRaised e; final := w; trace := t |} =>
      match k e w with
      | {| outcome := o; final := w'; trace := t' |} =>
          {| outcome := o; final := w'; trace := t ++ t' |}
      end
  end.

Fixpoint run {R : Type} (h : Handler) (p : Prog R) (w : W) : Run R :=
  match p with
  | Ret r => {| outcome := Done r; final := w; trace := [] |}
  | Raise e => {| outcome := ScriptRaised e; final := w; trace := [] |}
  | Vis c k =>
      match h c w with
      | (inl e, w') =>
          {| outcome := CallFailed c e; final := w';
             trace :=
               [ {| ev_pre := w; ev_call := c; ev_result := inl e;
                    ev_post := w' |} ] |}
      | (inr x, w') =>
          after {| ev_pre := w; ev_call := c; ev_result := inr x;
                   ev_post := w' |}
                (run h (k x) w')
      end
  | Try body handler k =>
      and_then
        (or_else (run h body w) (fun e w' => run h (handler e) w'))
        (fun a w' => run h (k a) w')
  end.

(** The calls a run issued, in order, the raising one included. *)
Definition calls {R : Type} (r : Run R) : list Call :=
  map ev_call (trace r).

(** The exception a run ended with. *)
Definition raised {R : Type} (r : Run R) : option Exc :=
  match outcome r with
  | Done _ => None
  | CallFailed _ e | ScriptRaised e => Some e
  end.

Definition completed {R : Type} (r : Run R) : bool :=
  match outcome r with Done _ => true | _ => false end.

Definition succeeded (ev : Event) : bool :=
  match ev_result ev with inr _ => true | inl _ => false end.
End Semantics.

Arguments Handler W : clear implicits.
Arguments Event W : clear implicits.
Arguments Build_Event {W} _ _ _ _.
Arguments Run W R : clear implicits.
Arguments Done {R} r.
Arguments CallFailed {R} c e.
Arguments ScriptRaised {R} e.
Arguments outcome {W R} _.
Arguments final {W R} _.
Arguments trace {W R} _.

(** A program without [try]: nothing in it intercepts an exception. *)
Fixpoint handler_free {R : Type} (p : Prog R) : Prop :=
  match p with
  | Ret _ | Raise _ => True
  | Vis c k => forall x, handler_free (k x)
  | Try _ _ _ => False
  end.

(** ** The part of [bpy.data] the script touches *)

(** A shader node: its type identifier, its input sockets by name with
    their [default_value] (absent for sockets that carry none, such as a
    shader socket), and the names of its output sockets. *)
Record Node : Type :=
  { bl_idname : string;
    inputs : gmap string (option Q);
    outputs : list string }.

Record Link : Type :=
  { from_node : string; from_socket : string;
    to_node : string; to_socket : string }.

Record NodeTree : Type :=
  { nodes : gmap string Node; links : list Link }.

Record Material : Type :=
  { use_nodes : bool; node_tree : option NodeTree }.

Record BObject : Type :=
  { active_material : option MatRef }.

(** [bpy.data.materials] and [bpy.data.objects], keyed by name. *)
Record BlendData : Type :=
  { materials : gmap string Material; objects : gmap string BObject }.

(** What the script relies on the host application for and does not itself
    say: the name a new data-block or node really gets when the requested
    one is taken, the node tree a material receives when nodes are first
    enabled, and the default name and the sockets of the node that a node
    type identifier stands for. *)
Record BlenderAPI : Type :=
  { unique_name : gset string -> string -> string;
    default_node_tree : NodeTree;
    node_of_type :
      string -> option (string * gmap string (option Q) * list string) }.

Definition find_tree (d : BlendData) (m : MatRef) : Exc + Material * NodeTree :=
  match materials d !! m with
  | None => inl (ReferenceError m)
  | Some mat =>
      match node_tree mat with
      | None => inl (AttributeError "'NoneType' object has no attribute")
      | Some t => inr (mat, t)
      end
  end.

Definition put_tree (d : BlendData) (m : MatRef) (mat : Material)
    (t : NodeTree) : BlendData :=
  {| materials :=
       <[m := {| use_nodes := use_nodes mat; node_tree := Some t |}]>
         (materials d);
     objects := objects d |}.

Definition find_node (d : BlendData) (n : NodeRef) : Exc + Node :=
  match find_tree d (nr_material n) with
  | inl e => inl e
  | inr (_, t) =>
      match nodes t !! nr_node n with
      | None => inl (ReferenceError (nr_node n))
      | Some nd => inr nd
      end
  end.

Definition is_input (s : SocketRef) : bool :=
  match sr_side s with Input => true | Output => false end.

Definition has_socket (d : BlendData) (s : SocketRef) : bool :=
  match find_node d (sr_node s) with
  | inl _ => false
  | inr nd =>
      match sr_side s with
      | Input => bool_decide (is_Some (inputs nd !! sr_name s))
      | Output => bool_decide (sr_name s ∈ outputs nd)
      end
  end.

(** The effect of one [bpy.data] operation, as lines 137-145 rely on it:
    a subscript on a missing name raises KeyError; a new material has no
    node tree until nodes are enabled; a new node carries the type it was
    asked for; [links.new] adds a link from the output socket to the input
    socket (what becomes of a link already into that input is left out);
    assigning [active_material] records the material on the object.  None
    of this is code of the repository; the host-specific facts are the
    fields of [BlenderAPI]. *)
Definition bpy_handle (api : BlenderAPI) (c : BpyCall) (d : BlendData)
    : (Exc + BpyRes c) * BlendData :=
  match c return (Exc + BpyRes c) * BlendData with
  | materials_new name =>
      let n := unique_name api (dom (materials d)) name in
      (inr n,
       {| materials :=
            <[n := {| use_nodes := false; node_tree := None |}]> (materials d);
          objects := objects d |})
  | materials_getitem name =>
      match materials d !! name with
      | Some _ => (inr name, d)
      | None => (inl (KeyError name), d)
      end
  | set_use_nodes m value =>
      match materials d !! m with
      | None => (inl (ReferenceError m), d)
      | Some mat =>
          let t :=
            match node_tree mat with
            | Some t => Some t
            | None => if value then Some (default_node_tree api) else None
            end in
          (inr tt,
           {| materials :=
                <[m := {| use_nodes := value; node_tree := t |}]> (materials d);
              objects := objects d |})
      end
  | node_tree_nodes m | node_tree_links m =>
      match find_tree d m with
      | inl e => (inl e, d)
      | inr _ => (inr m, d)
      end
  | nodes_new ns type =>
      match find_tree d ns with
      | inl e => (inl e, d)
      | inr (mat, t) =>
          match node_of_type api type with
          | None => (inl (OtherError "RuntimeError" type), d)
          | Some (label, ins, outs) =>
              let n := unique_name api (dom (nodes t)) label in
              (inr {| nr_material := ns; nr_node := n |},
               put_tree d ns mat
                 {| nodes :=
                      <[n := {| bl_idname := type; inputs := ins;
                                outputs := outs |}]> (nodes t);
                    links := links t |})
          end
      end
  | nodes_getitem ns name =>
      match find_tree d ns with
      | inl e => (inl e, d)
      | inr (_, t) =>
          match nodes t !! name with
          | Some _ => (inr {| nr_material := ns; nr_node := name |}, d)
          | None => (inl (KeyError name), d)
          end
      end
  | inputs_getitem n name =>
      match find_node d n with
      | inl e => (inl e, d)
      | inr nd =>
          match inputs nd !! name with
          | Some _ =>
              (inr {| sr_node := n; sr_side := Input; sr_name := name |}, d)
          | None => (inl (KeyError name), d)
          end
      end
  | outputs_getitem n name =>
      match find_node d n with
      | inl e => (inl e, d)
      | inr nd =>
          if bool_decide (name ∈ outputs nd) then
            (inr {| sr_node := n; sr_side := Output; sr_name := name |}, d)
          else (inl (KeyError name), d)
      end
  | set_default_value s value =>
      match find_tree d (nr_material (sr_node s)) with
      | inl e => (inl e, d)
      | inr (mat, t) =>
          match nodes t !! nr_node (sr_node s), sr_side s with
          | Some nd, Input =>
              match inputs nd !! sr_name s with
              | Some (Some _) =>
                  (inr tt,
                   put_tree d (nr_material (sr_node s)) mat
                     {| nodes :=
                          <[nr_node (sr_node s) :=
                              {| bl_idname := bl_idname nd;
                                 inputs :=
                                   <[sr_name s := Some value]> (inputs nd);
                                 outputs := outputs nd |}]> (nodes t);
                        links := links t |})
              | _ => (inl (AttributeError "default_value"), d)
              end
          | _, _ => (inl (AttributeError "default_value"), d)
          end
      end
  | links_new ls input output =>
      match find_tree d ls with
      | inl e => (inl e, d)
      | inr (mat, t) =>
          if bool_decide (nr_material (sr_node input) = ls)
             && bool_decide (nr_material (sr_node output) = ls)
             && is_input input && negb (is_input output)
             && has_socket d input && has_socket d output
          then
            (inr tt,
             put_tree d ls mat
               {| nodes := nodes t;
                  links :=
                    {| from_node := nr_node (sr_node output);
                       from_socket := sr_name output;
                       to_node := nr_node (sr_node input);
                       to_socket := sr_name input |} :: links t |})
          else (inl (OtherError "RuntimeError" "links.new"), d)
      end
  | objects_getitem name =>
      match objects d !! name with
      | Some _ => (inr name, d)
      | None => (inl (KeyError name), d)
      end
  | set_active_material o m =>
      match objects d !! o, materials d !! m with
      | Some _, Some _ =>
          (inr tt,
           {| materials := materials d;
              objects := <[o := {| active_material := Some m |}]> (objects d) |})
      | _, _ => (inl (ReferenceError o), d)
      end
  end.

(** The world of a run: [bpy.data] and whatever else the collaborators
    keep (files, their own objects, the renderer). *)
Record World (E : Type) : Type :=
  { blend : BlendData; ext : E }.
Arguments blend {E} _.
Arguments ext {E} _.

(** The collaborators outside [bpy.data] may do anything to the world. *)
Definition ExtHandler (E : Type) : Type :=
  forall c : ExtCall, World E -> (Exc + ExtRes c) * World E.

Definition host {E : Type} (api : BlenderAPI) (eh : ExtHandler E)
    : Handler (World E) :=
  fun c =>
    match c return World E -> (Exc + Res c) * World E with
    | Ext c => eh c
    | Bpy c => fun w =>
        let '(r, d) := bpy_handle api c (blend w) in
        (r, {| blend := d; ext := ext w |})
    end.

(** ** Reading a trace *)

(** The function, method, attribute or subscript a call goes to. *)
Definition callee (c : Call) : string :=
  match c with
  | Ext c =>
      match c with
      | render_mechanical_3d_path => "dataset.render_mechanical_3d_path"
      | dic_pattern_5mpx_path => "dataset.dic_pattern_5mpx_path"
      | Path_cwd => "Path.cwd"
      | ExodusReader _ => "mh.ExodusReader"
      | read_all_sim_data _ => "read_all_sim_data"
      | scale_length_units _ _ _ => "sens.scale_length_units"
      | create_render_mesh _ _ _ _ => "sens.create_render_mesh"
      | Scene => "blender.Scene"
      | add_part _ _ _ => "scene.add_part"
      | move_blender_obj _ _ => "blender.Tools.move_blender_obj"
      | rotate_blender_obj _ _ => "blender.Tools.rotate_blender_obj"
      | CameraData _ => "sens.CameraData"
      | symmetric_stereo_cameras _ _ =>
          "sens.CameraTools.symmetric_stereo_cameras"
      | faceon_stereo_cameras _ _ => "sens.CameraTools.faceon_stereo_cameras"
      | add_stereo_system _ _ => "scene.add_stereo_system"
      | save_calibration _ _ => "stereo_system.save_calibration"
      | LightData _ => "blender.LightData"
      | add_light _ _ => "scene.add_light"
      | MaterialData => "blender.MaterialData"
      | calculate_mm_px_resolution _ =>
          "sens.CameraTools.calculate_mm_px_resolution"
      | add_speckle _ _ _ _ _ => "scene.add_speckle"
      | attr_cam_data_0 _ => "stereo_system.cam_data_0"
      | attr_cam_data_1 _ => "stereo_system.cam_data_1"
      | RenderData _ _ _ _ => "blender.RenderData"
      | render_deformed_images _ _ _ _ _ _ => "scene.render_deformed_images"
      | attr_base_dir _ => "render_data.base_dir"
      | print _ _ => "print"
      | save_blender_file _ _ => "blender.Tools.save_blender_file"
      end
  | Bpy c =>
      match c with
      | materials_new _ => "bpy.data.materials.new"
      | materials_getitem _ => "bpy.data.materials[]"
      | set_use_nodes _ _ => "use_nodes="
      | node_tree_nodes _ => "node_tree.nodes"
      | nodes_new _ _ => "nodes.new"
      | nodes_getitem _ _ => "nodes[]"
      | inputs_getitem _ _ => "inputs[]"
      | outputs_getitem _ _ => "outputs[]"
      | set_default_value _ _ => "default_value="
      | node_tree_links _ => "node_tree.links"
      | links_new _ _ _ => "links.new"
      | objects_getitem _ => "bpy.data.objects[]"
      | set_active_material _ _ => "active_material="
      end
  end.

Definition is_symmetric_constructor (c : Call) : bool :=
  match c with Ext (symmetric_stereo_cameras _ _) => true | _ => false end.

Definition is_faceon_constructor (c : Call) : bool :=
  match c with Ext (faceon_stereo_cameras _ _) => true | _ => false end.

Definition is_stereo_constructor (c : Call) : bool :=
  is_symmetric_constructor c || is_faceon_constructor c.

(** The calls that construct a scene, a part of it, a camera or a stereo
    camera pair. *)
Definition constructs_camera_or_scene_object (c : Call) : bool :=
  match c with
  | Ext Scene | Ext (add_part _ _ _) | Ext (CameraData _)
  | Ext (symmetric_stereo_cameras _ _) | Ext (faceon_stereo_cameras _ _)
  | Ext (add_stereo_system _ _) => true
  | _ => false
  end.

Definition is_save_calibration (c : Call) : bool :=
  match c with Ext (save_calibration _ _) => true | _ => false end.

Definition is_render_deformed_images (c : Call) : bool :=
  match c with
  | Ext (render_deformed_images _ _ _ _ _ _) => true
  | _ => false
  end.

(** Calls that take a light, speckle, material or render setting: lines
    114-170 apart from the reads of [stereo_system]'s attributes. *)
Definition configures_light_material_render (c : Call) : bool :=
  match c with
  | Ext (LightData _) | Ext (add_light _ _) | Ext MaterialData
  | Ext dic_pattern_5mpx_path | Ext (calculate_mm_px_resolution _)
  | Ext (add_speckle _ _ _ _ _) | Ext (RenderData _ _ _ _)
  | Ext (render_deformed_images _ _ _ _ _ _) | Bpy _ => true
  | _ => false
  end.

(** Files named to the simulation-result reader. *)
Definition paths_read (cs : list Call) : list Path :=
  omap (fun c => match c with Ext (ExodusReader p) => Some p | _ => None end) cs.

(** Speckle images named to [add_speckle]. *)
Definition speckle_paths (cs : list Call) : list Path :=
  omap (fun c =>
          match c with
          | Ext (add_speckle _ _ p _ _) => Some p
          | _ => None
          end) cs.

(** Output directories named to the calls that write files. *)
Definition output_dirs (cs : list Call) : list Path :=
  omap (fun c =>
          match c with
          | Ext (save_calibration _ d) | Ext (RenderData _ d _ _)
          | Ext (save_blender_file d _) => Some d
          | _ => None
          end) cs.

(** The scale and the displacement components of each
    [scale_length_units] call. *)
Definition scalings (cs : list Call) : list (Q * list string) :=
  omap (fun c =>
          match c with
          | Ext (scale_length_units scale _ comps) => Some (scale, comps)
          | _ => None
          end) cs.

(** The mesh and the part each [render_deformed_images] call deforms. *)
Definition deformed (cs : list Call) : list (Ref * Ref) :=
  omap (fun c =>
          match c with
          | Ext (render_deformed_images _ mesh _ _ part _) => Some (mesh, part)
          | _ => None
          end) cs.

Definition result_as_ref (c : Call) : Exc + Res c -> option Ref :=
  match c return Exc + Res c -> option Ref with
  | Ext c =>
      match c return Exc + ExtRes c -> option Ref with
      | ExodusReader _ | read_all_sim_data _ | scale_length_units _ _ _
      | create_render_mesh _ _ _ _ | Scene | add_part _ _ _ | CameraData _
      | symmetric_stereo_cameras _ _ | faceon_stereo_cameras _ _
      | LightData _ | add_light _ _ | MaterialData | attr_cam_data_0 _
      | attr_cam_data_1 _ | RenderData _ _ _ _ =>
          fun r => match r with inr x => Some x | inl _ => None end
      | _ => fun _ => None
      end
  | Bpy _ => fun _ => None
  end.

Definition result_as_path (c : Call) : Exc + Res c -> option Path :=
  match c return Exc + Res c -> option Path with
  | Ext c =>
      match c return Exc + ExtRes c -> option Path with
      | render_mechanical_3d_path | dic_pattern_5mpx_path | Path_cwd
      | attr_base_dir _ =>
          fun r => match r with inr x => Some x | inl _ => None end
      | _ => fun _ => None
      end
  | Bpy _ => fun _ => None
  end.

Section TraceReading.
Context {W : Type}.


(** References returned by the calls singled out by [sel]. *)
Definition refs_returned (sel : Call -> bool) (t : list (Event W)) : list Ref :=
  omap (fun ev =>
          if sel (ev_call ev) then result_as_ref (ev_call ev) (ev_result ev)
          else None) t.

Definition paths_returned (sel : Call -> bool) (t : list (Event W)) : list Path :=
  omap (fun ev =>
          if sel (ev_call ev) then result_as_path (ev_call ev) (ev_result ev)
          else None) t.

(** The trace up to and including the first [save_calibration]. *)
Fixpoint upto_calibration (t : list (Event W)) : list (Event W) :=
  match t with
  | [] => []
  | ev :: t' =>
      if is_save_calibration (ev_call ev) then [ev]
      else ev :: upto_calibration t'
  end.
End TraceReading.

Definition is_add_part (c : Call) : bool :=
  match c with Ext (add_part _ _ _) => true | _ => false end.

Definition is_create_render_mesh (c : Call) : bool :=
  match c with Ext (create_render_mesh _ _ _ _) => true | _ => false end.

Definition is_CameraData (c : Call) : bool :=
  match c with Ext (CameraData _) => true | _ => false end.

Definition is_callee (name : string) (c : Call) : bool :=
  String.eqb (callee c) name.

Definition is_objects_getitem (c : Call) : bool :=
  match c with Bpy (objects_getitem _) => true | _ => false end.

Definition is_materials_getitem (c : Call) : bool :=
  match c with Bpy (materials_getitem _) => true | _ => false end.

Definition is_set_active_material (c : BpyCall) : bool :=
  match c with set_active_material _ _ => true | _ => false end.

(** The object and the material of each [active_material] assignment. *)
Definition active_material_targets (cs : list Call) : list (string * string) :=
  omap (fun c =>
          match c with
          | Bpy (set_active_material o m) => Some (o, m)
          | _ => None
          end) cs.

Definition result_as_name (c : Call) : Exc + Res c -> option string :=
  match c return Exc + Res c -> option string with
  | Bpy c =>
      match c return Exc + BpyRes c -> option string with
      | materials_new _ | materials_getitem _ | node_tree_nodes _
      | node_tree_links _ | objects_getitem _ =>
          fun r => match r with inr x => Some x | inl _ => None end
      | _ => fun _ => None
      end
  | Ext _ => fun _ => None
  end.

(** Data-block references returned by the calls singled out by [sel]. *)
Definition names_returned {W : Type} (sel : Call -> bool)
    (t : list (Event W)) : list string :=
  omap (fun ev =>
          if sel (ev_call ev) then result_as_name (ev_call ev) (ev_result ev)
          else None) t.

(** The default value of the input "IOR" of the node [n] of the material
    [m], and the links of that material's node tree. *)
Definition node_ior (d : BlendData) (m n : string) : option Q :=
  match find_node d {| nr_material := m; nr_node := n |} with
  | inr nd =>
      match inputs nd !! "IOR" with
      | Some v => v
      | None => None
      end
  | inl _ => None
  end.

Definition links_of (d : BlendData) (m : string) : list Link :=
  match find_tree d m with
  | inr (_, t) => links t
  | inl _ => []
  end.

(** ** A small host

    A stand-in for the collaborators, on which the statements below are
    exercised: references are handed out in sequence, [add_part] registers
    objects under Blender-style unique names, the reader fails on a file
    that is not on disk, and the renderer keeps an internal sampling
    counter. *)
Module Studio.

#[global] Instance Path_eq_dec : EqDecision Path.
Proof. solve_decision. Defined.

Definition is_digit (a : Ascii.ascii) : bool :=
  let n := Ascii.nat_of_ascii a in (48 <=? n)%nat && (n <=? 57)%nat.

(** [name] without a trailing [.NNN]. *)
Definition stem (name : string) : string :=
  let len := String.length name in
  match String.get (len - 4) name with
  | Some "."%char =>
      if (4 <=? len)%nat
         && forallb is_digit
              (list_ascii_of_string (String.substring (len - 3) 3 name))
      then String.substring 0 (len - 4) name
      else name
  | _ => name
  end.

Definition next_free_name (taken : gset string) (name : string) : string :=
  if bool_decide (name ∈ taken) then
    match
      List.find (fun c => bool_decide (c ∉ taken))
        (map (String.append (stem name))
             [".001"; ".002"; ".003"; ".004"; ".005"; ".006"; ".007"])
    with
    | Some c => c
    | None => name
    end
  else name.

Definition factory_node_tree : NodeTree :=
  {| nodes :=
       <["Principled BSDF" :=
           {| bl_idname := "ShaderNodeBsdfPrincipled";
              inputs := <["IOR" := Some 1.5%Q]> (<["Base Color" := None]> ∅);
              outputs := ["BSDF"] |}]>
       (<["Material Output" :=
            {| bl_idname := "ShaderNodeOutputMaterial";
               inputs := <["Surface" := None]> (<["Volume" := None]> ∅);
               outputs := [] |}]> ∅);
     links :=
       [ {| from_node := "Principled BSDF"; from_socket := "BSDF";
            to_node := "Material Output"; to_socket := "Surface" |} ] |}.

Definition shader_node (type : string)
    : option (string * gmap string (option Q) * list string) :=
  if String.eqb type "ShaderNodeBsdfGlass" then
    Some ("Glass BSDF",
          <["IOR" := Some 1.5%Q]>
            (<["Roughness" := Some 0%Q]> (<["Color" := None]> ∅)),
          ["BSDF"])
  else None.

Definition api : BlenderAPI :=
  {| unique_name := next_free_name;
     default_node_tree := factory_node_tree;
     node_of_type := shader_node |}.

(** What the collaborators keep outside [bpy.data]. *)
Record Store : Type :=
  { next_ref : positive;
    disk : list Path;
    render_dirs : list (Ref * Path);
    calibration : option (Path * Ref);
    images : list Path;
    displaced : list Ref;
    sampling : N }.

Definition fresh (w : World Store) : Ref * World Store :=
  (next_ref (ext w),
   {| blend := blend w;
      ext :=
        {| next_ref := Pos.succ (next_ref (ext w));
           disk := disk (ext w);
           render_dirs := render_dirs (ext w);
           calibration := calibration (ext w);
           images := images (ext w);
           displaced := displaced (ext w);
           sampling := sampling (ext w) |} |}).

Definition returning_fresh (w : World Store) : (Exc + Ref) * World Store :=
  (inr (fresh w).1, (fresh w).2).

Definition handle_ext : ExtHandler Store :=
  fun c =>
    match c return World Store -> (Exc + ExtRes c) * World Store with
    | render_mechanical_3d_path => fun w =>
        (inr (PathOf "pyvale/data/render_mechanical_3d.e"), w)
    | dic_pattern_5mpx_path => fun w =>
        (inr (PathOf "pyvale/data/dic_pattern_5mpx.tiff"), w)
    | Path_cwd => fun w => (inr (PathOf "/work"), w)
    | ExodusReader p => fun w =>
        if bool_decide (p ∈ disk (ext w)) then returning_fresh w
        else (inl (OtherError "FileNotFoundError" "ExodusReader"), w)
    | add_part _ _ _ => fun w =>
        let '(r, w') := fresh w in
        (inr r,
         {| blend :=
              {| materials := materials (blend w');
                 objects :=
                   <[next_free_name (dom (objects (blend w'))) "Part" :=
                       {| active_material := None |}]> (objects (blend w')) |};
            ext := ext w' |})
    | add_stereo_system _ _ => fun w =>
        let '(r0, w0) := fresh w in
        let '(r1, w1) := fresh w0 in
        (inr (r0, r1), w1)
    | save_calibration stereo dir => fun w =>
        (inr tt,
         {| blend := blend w;
            ext :=
              {| next_ref := next_ref (ext w);
                 disk := disk (ext w);
                 render_dirs := render_dirs (ext w);
                 calibration := Some (PathJoin dir "calibration", stereo);
                 images := images (ext w);
                 displaced := displaced (ext w);
                 sampling := sampling (ext w) |} |})
    | calculate_mm_px_resolution _ => fun w => (inr 0.1%Q, w)
    | add_speckle _ _ _ _ _ => fun w =>
        (inr tt,
         {| blend :=
              {| materials :=
                   <[next_free_name (dom (materials (blend w))) "Material" :=
                       {| use_nodes := true;
                          node_tree := Some factory_node_tree |}]>
                     (materials (blend w));
                 objects := objects (blend w) |};
            ext := ext w |})
    | RenderData _ dir _ _ => fun w =>
        let '(r, w') := fresh w in
        (inr r,
         {| blend := blend w';
            ext :=
              {| next_ref := next_ref (ext w');
                 disk := disk (ext w');
                 render_dirs := (r, dir) :: render_dirs (ext w');
                 calibration := calibration (ext w');
                 images := images (ext w');
                 displaced := displaced (ext w');
                 sampling := sampling (ext w') |} |})
    | render_deformed_images _ _ _ render_data part _ => fun w =>
        match List.find (fun rd => Pos.eqb rd.1 render_data)
                (render_dirs (ext w)) with
        | None => (inl (AttributeError "base_dir"), w)
        | Some (_, dir) =>
            (inr tt,
             {| blend := blend w;
                ext :=
                  {| next_ref := next_ref (ext w);
                     disk := disk (ext w);
                     render_dirs := render_dirs (ext w);
                     calibration := calibration (ext w);
                     images :=
                       [ PathJoin (PathJoin dir "blenderimages") "cam0_0";
                         PathJoin (PathJoin dir "blenderimages") "cam1_0" ]
                       ++ images (ext w);
                     displaced := part :: displaced (ext w);
                     sampling := N.succ (sampling (ext w)) |} |})
        end
    | attr_base_dir render_data => fun w =>
        match List.find (fun rd => Pos.eqb rd.1 render_data)
                (render_dirs (ext w)) with
        | None => (inl (AttributeError "base_dir"), w)
        | Some (_, dir) => (inr dir, w)
        end
    | move_blender_obj _ _ | rotate_blender_obj _ _ | print _ _
    | save_blender_file _ _ => fun w => (inr tt, w)
    | _ => returning_fresh
    end.

Definition handle : Handler (World Store) := host api handle_ext.

(** A new session: nothing in [bpy.data], both simulation files on disk. *)
Definition initial : World Store :=
  {| blend := {| materials := ∅; objects := ∅ |};
     ext :=
       {| next_ref := 1%positive;
          disk :=
            [ PathOf "pyvale/data/render_mechanical_3d.e";
              PathJoin (PathOf "/work") "moose/input/circular_glass_out.e" ];
          render_dirs := [];
          calibration := None;
          images := [];
          displaced := [];
          sampling := 0%N |} |}.

(** The same session without the glass simulation output. *)
Definition initial_without_glass_output : World Store :=
  {| blend := blend initial;
     ext :=
       {| next_ref := 1%positive;
          disk := [ PathOf "pyvale/data/render_mechanical_3d.e" ];
          render_dirs := [];
          calibration := None;
          images := [];
          displaced := [];
          sampling := 0%N |} |}.

Definition with_stereo_setup (s : string) : Config :=
  {| stereo_setup := s;
     cam_spec := cam_spec source_config;
     light_spec := light_spec source_config;
     glass_ior := glass_ior source_config;
     render_threads := render_threads source_config;
     render_samples := render_samples source_config |}.

(** A session that is not new: an object called "Part" is left over. *)
Definition initial_with_leftover_part : World Store :=
  {| blend :=
       {| materials := ∅;
          objects := {[ "Part" := {| active_material := None |} ]} |};
     ext := ext initial |}.

(** A session in which a material already holds the name "Material.001". *)
Definition initial_with_material_001 : World Store :=
  {| blend :=
       {| materials :=
            {[ "Material.001" := {| use_nodes := false; node_tree := None |} ]};
          objects := ∅ |};
     ext := ext initial |}.

(** A session in which "Material.001" is a material with nodes enabled
    and the node tree untouched. *)
Definition initial_with_plain_material : World Store :=
  {| blend :=
       {| materials :=
            {[ "Material.001" :=
                 {| use_nodes := true; node_tree := Some factory_node_tree |} ]};
          objects := ∅ |};
     ext := ext initial |}.

(** A session in which "Material.001" is already a glass material, made
    with an index of refraction of 1.45. *)
Definition initial_with_glass_material : World Store :=
  {| blend :=
       {| materials :=
            {[ "Material.001" :=
                 {| use_nodes := true;
                    node_tree :=
                      Some
                        {| nodes :=
                             <["Glass BSDF" :=
                                 {| bl_idname := "ShaderNodeBsdfGlass";
                                    inputs := <["IOR" := Some 1.45%Q]> ∅;
                                    outputs := ["BSDF"] |}]>
                             (<["Material Output" :=
                                  {| bl_idname := "ShaderNodeOutputMaterial";
                                     inputs := <["Surface" := None]> ∅;
                                     outputs := [] |}]> ∅);
                           links := [] |} |} ]};
          objects := ∅ |};
     ext := ext initial |}.

(** The same session with the renderer's sampler already advanced. *)
Definition initial_sampler_advanced : World Store :=
  {| blend := blend initial;
     ext :=
       {| next_ref := 1%positive;
          disk := disk (ext initial);
          render_dirs := [];
          calibration := None;
          images := [];
          displaced := [];
          sampling := 7%N |} |}.



(** The source's configuration with a cheaper render. *)
Definition quick_render_config : Config :=
  {| stereo_setup := stereo_setup source_config;
     cam_spec := cam_spec source_config;
     light_spec := light_spec source_config;
     glass_ior := glass_ior source_config;
     render_threads := 1%Z;
     render_samples := 4%Z |}.

(** The source's camera and selector under a dimmer light, another
    glass and a cheaper render. *)
Definition dim_config : Config :=
  {| stereo_setup := stereo_setup source_config;
     cam_spec := cam_spec source_config;
     light_spec :=
       {| light_type := POINT;
          light_pos_world := [0; 0; 300]%Z;
          light_rot_world := from_euler "xyz" [0; 0; 0]%Q false;
          energy := 1%Z |};
     glass_ior := 1.5%Q;
     render_threads := 1%Z;
     render_samples := 4%Z |}.

End Studio.

(** ** Reading a run *)

(** A run seen from the middle: the events already behind it, latest
    first, followed by what is still to run. *)
Definition resume {W R : Type} (past : list (Event W)) (r : Run W R)
    : Run W R :=
  match r with
  | {| outcome := o; final := w; trace := t |} =>
      {| outcome := o; final := w; trace := rev_append past t |}
  end.

(** An event is faithful when it is one call put to the host, with the
    host's own answer. *)
Definition faithful {W : Type} (h : Handler W) (ev : Event W) : Prop :=
  h (ev_call ev) (ev_pre ev) = (ev_result ev, ev_post ev).

(** The world left by the latest [save_calibration] of a trace that
    started in [w0]. *)
Definition last_calibrated {W : Type} (t : list (Event W)) (w0 : W) : W :=
  fold_left
    (fun w ev => if is_save_calibration (ev_call ev) then ev_post ev else w)
    t w0.


(** The calls of lines 177-183, which follow the rendering: the read of
    [render_data.base_dir], [print] and [save_blender_file]. *)
Definition follows_rendering (c : Call) : bool :=
  match c with
  | Ext (attr_base_dir _) | Ext (print _ _) | Ext (save_blender_file _ _) =>
      true
  | _ => false
  end.

(** A program, without [try], all of whose calls are of that kind. *)
Fixpoint only_follow_up {R : Type} (p : Prog R) : Prop :=
  match p with
  | Ret _ | Raise _ => True
  | Vis c k => follows_rendering c = true /\ forall x, only_follow_up (k x)
  | Try _ _ _ => False
  end.

(** A program, without [try], that once it has called
    [render_deformed_images] goes on with calls of that kind only. *)
Fixpoint nothing_else_after_rendering {R : Type} (p : Prog R) : Prop :=
  match p with
  | Ret _ | Raise _ => True
  | Vis c k =>
      if is_render_deformed_images c then forall x, only_follow_up (k x)
      else forall x, nothing_else_after_rendering (k x)
  | Try _ _ _ => False
  end.

(** Lines 33-95: what the script calls, in order, before it looks at
    [stereo_setup]. *)
Definition pre_selection_callees : list string :=
  [ "dataset.render_mechanical_3d_path"; "mh.ExodusReader";
    "read_all_sim_data"; "Path.cwd"; "mh.ExodusReader"; "read_all_sim_data";
    "sens.scale_length_units"; "sens.scale_length_units";
    "sens.create_render_mesh"; "sens.create_render_mesh"; "Path.cwd";
    "blender.Scene"; "scene.add_part"; "scene.add_part";
    "blender.Tools.move_blender_obj"; "blender.Tools.rotate_blender_obj";
    "sens.CameraData" ].

(** ** Arguments by role

    What the calls of a run were given, for following a value from the
    call that returned it to the calls that take it. *)

(** Readers asked for their data. *)
Definition read_requests (cs : list Call) : list Ref :=
  omap (fun c =>
          match c with
          | Ext (read_all_sim_data reader) => Some reader
          | _ => None
          end) cs.

(** Simulation data handed to [scale_length_units]. *)
Definition scale_sources (cs : list Call) : list Ref :=
  omap (fun c =>
          match c with
          | Ext (scale_length_units _ sim_data _) => Some sim_data
          | _ => None
          end) cs.

(** Arguments of each [create_render_mesh] call. *)
Definition mesh_requests (cs : list Call)
    : list (Ref * list string * Z * list string) :=
  omap (fun c =>
          match c with
          | Ext (create_render_mesh sim_data render_keys dim disp_keys) =>
              Some (sim_data, render_keys, dim, disp_keys)
          | _ => None
          end) cs.

(** Render mesh and dimension of each [add_part] call. *)
Definition part_requests (cs : list Call) : list (Ref * Z) :=
  omap (fun c =>
          match c with
          | Ext (add_part _ mesh dim) => Some (mesh, dim)
          | _ => None
          end) cs.

Definition moved (cs : list Call) : list (Ref * list Z) :=
  omap (fun c =>
          match c with
          | Ext (move_blender_obj o pos) => Some (o, pos)
          | _ => None
          end) cs.

Definition rotated (cs : list Call) : list (Ref * Rotation) :=
  omap (fun c =>
          match c with
          | Ext (rotate_blender_obj o rot) => Some (o, rot)
          | _ => None
          end) cs.

Definition speckled (cs : list Call) : list Ref :=
  omap (fun c =>
          match c with
          | Ext (add_speckle _ o _ _ _) => Some o
          | _ => None
          end) cs.

(** The scene each scene method is called on. *)
Definition scenes_used (cs : list Call) : list Ref :=
  omap (fun c =>
          match c with
          | Ext (add_part s _ _) | Ext (add_stereo_system s _)
          | Ext (add_light s _) | Ext (add_speckle s _ _ _ _)
          | Ext (render_deformed_images s _ _ _ _ _) => Some s
          | _ => None
          end) cs.

(** The stereo system each call on a stereo system is given. *)
Definition stereo_systems_used (cs : list Call) : list Ref :=
  omap (fun c =>
          match c with
          | Ext (add_stereo_system _ st) | Ext (save_calibration st _)
          | Ext (attr_cam_data_0 st) | Ext (attr_cam_data_1 st) => Some st
          | _ => None
          end) cs.




(** Cameras, thread count and sample count of each [RenderData] call. *)
Definition render_requests (cs : list Call) : list (Ref * Ref * Z * Z) :=
  omap (fun c =>
          match c with
          | Ext (RenderData (c0, c1) _ threads samples) =>
              Some (c0, c1, threads, samples)
          | _ => None
          end) cs.

(** The render data each call on render data is given. *)
Definition render_data_used (cs : list Call) : list Ref :=
  omap (fun c =>
          match c with
          | Ext (render_deformed_images _ _ _ rd _ _) | Ext (attr_base_dir rd) =>
              Some rd
          | _ => None
          end) cs.

(** Dimension and staging flag of each [render_deformed_images] call. *)
Definition render_flags (cs : list Call) : list (Z * bool) :=
  omap (fun c =>
          match c with
          | Ext (render_deformed_images _ _ dim _ _ stage) => Some (dim, stage)
          | _ => None
          end) cs.

(** What is printed. *)
Definition printed (cs : list Call) : list (string * Path) :=
  omap (fun c =>
          match c with
          | Ext (print label p) => Some (label, p)
          | _ => None
          end) cs.

(** Directory and override flag of each [save_blender_file] call. *)
Definition blend_saves (cs : list Call) : list (Path * bool) :=
  omap (fun c =>
          match c with
          | Ext (save_blender_file d override) => Some (d, override)
          | _ => None
          end) cs.

(** Calls into Blender: the scene and its tools, and [bpy.data]. *)
Definition touches_blender (c : Call) : bool :=
  match c with
  | Ext Scene | Ext (add_part _ _ _) | Ext (move_blender_obj _ _)
  | Ext (rotate_blender_obj _ _) | Ext (add_stereo_system _ _)
  | Ext (add_light _ _) | Ext (add_speckle _ _ _ _ _)
  | Ext (render_deformed_images _ _ _ _ _ _)
  | Ext (save_blender_file _ _) | Bpy _ => true
  | _ => false
  end.

(** Calls that write files under the output directory. *)
Definition writes_output (c : Call) : bool :=
  match c with
  | Ext (save_calibration _ _) | Ext (render_deformed_images _ _ _ _ _ _)
  | Ext (save_blender_file _ _) => true
  | _ => false
  end.

(** The writing calls of a trace, each with whether it succeeded. *)
Definition outputs_written {W : Type} (t : list (Event W))
    : list (string * bool) :=
  omap (fun ev =>
          if writes_output (ev_call ev)
          then Some (callee (ev_call ev), succeeded ev)
          else None) t.

(** Names asked of [bpy.data.materials], by [new] and by subscript. *)
Definition material_names (cs : list Call) : list string :=
  omap (fun c =>
          match c with
          | Bpy (materials_new name) | Bpy (materials_getitem name) => Some name
          | _ => None
          end) cs.

(** Types of the nodes asked of [nodes.new]. *)
Definition node_types_created (cs : list Call) : list string :=
  omap (fun c =>
          match c with Bpy (nodes_new _ type) => Some type | _ => None end) cs.

(** Names asked of a node collection by subscript. *)
Definition node_lookups (cs : list Call) : list string :=
  omap (fun c =>
          match c with Bpy (nodes_getitem _ name) => Some name | _ => None end)
       cs.

(** Node, side and name of each socket subscript. *)
Definition socket_lookups (cs : list Call)
    : list (NodeRef * SocketSide * string) :=
  omap (fun c =>
          match c with
          | Bpy (inputs_getitem n name) => Some (n, Input, name)
          | Bpy (outputs_getitem n name) => Some (n, Output, name)
          | _ => None
          end) cs.

(** Socket and value of each [default_value] assignment. *)
Definition default_values_set (cs : list Call) : list (SocketRef * Q) :=
  omap (fun c =>
          match c with
          | Bpy (set_default_value s v) => Some (s, v)
          | _ => None
          end) cs.

(** Input and output socket of each [links.new] call. *)
Definition links_requested (cs : list Call) : list (SocketRef * SocketRef) :=
  omap (fun c =>
          match c with
          | Bpy (links_new _ input output) => Some (input, output)
          | _ => None
          end) cs.

(** Material and flag of each [use_nodes] assignment. *)
Definition use_nodes_set (cs : list Call) : list (string * bool) :=
  omap (fun c =>
          match c with
          | Bpy (set_use_nodes m value) => Some (m, value)
          | _ => None
          end) cs.


Definition result_as_node (c : Call) : Exc + Res c -> option NodeRef :=
  match c return Exc + Res c -> option NodeRef with
  | Bpy c =>
      match c return Exc + BpyRes c -> option NodeRef with
      | nodes_new _ _ | nodes_getitem _ _ =>
          fun r => match r with inr x => Some x | inl _ => None end
      | _ => fun _ => None
      end
  | Ext _ => fun _ => None
  end.

Definition result_as_socket (c : Call) : Exc + Res c -> option SocketRef :=
  match c return Exc + Res c -> option SocketRef with
  | Bpy c =>
      match c return Exc + BpyRes c -> option SocketRef with
      | inputs_getitem _ _ | outputs_getitem _ _ =>
          fun r => match r with inr x => Some x | inl _ => None end
      | _ => fun _ => None
      end
  | Ext _ => fun _ => None
  end.

Section ResultReading.
Context {W : Type}.


(** Nodes returned by the calls singled out by [sel]. *)
Definition nodes_returned (sel : Call -> bool) (t : list (Event W))
    : list NodeRef :=
  omap (fun ev =>
          if sel (ev_call ev) then result_as_node (ev_call ev) (ev_result ev)
          else None) t.

(** Sockets returned by the socket subscripts of a trace. *)
Definition sockets_returned (t : list (Event W)) : list SocketRef :=
  omap (fun ev => result_as_socket (ev_call ev) (ev_result ev)) t.
End ResultReading.

(** The trace before the first [RenderData] call. *)
Fixpoint before_render_data {W : Type} (t : list (Event W)) : list (Event W) :=
  match t with
  | [] => []
  | ev :: t' =>
      if is_callee "blender.RenderData" (ev_call ev) then []
      else ev :: before_render_data t'
  end.

(** * Properties *)

(** ** Stepping through a run *)

Section Stepping.
Context {W : Type} (h : Handler W).

Lemma resume_nil {R : Type} (r : Run W R) : resume [] r = r.
Proof. by destruct r. Qed.

Lemma resume_after {R : Type} (past : list (Event W)) (ev : Event W)
    (r : Run W R) :
  resume past (after ev r) = resume (ev :: past) r.
Proof. by destruct r. Qed.

(** The next call either raises, and the run stops there, or returns,
    and the run goes on with the value and the world it returned. *)
Lemma resume_step {R : Type} (P : Run W R -> Prop) (past : list (Event W))
    (c : Call) (k : Res c -> Prog R) (w : W) :
  (forall e w', h c w = (inl e, w') ->
     P (resume past
          {| outcome := CallFailed c e; final := w';
             trace := [ {| ev_pre := w; ev_call := c; ev_result := inl e;
                           ev_post := w' |} ] |})) ->
  (forall x w', h c w = (inr x, w') ->
     P (resume ({| ev_pre := w; ev_call := c; ev_result := inr x;
                   ev_post := w' |} :: past)
               (run h (k x) w'))) ->
  P (resume past (run h (Vis c k) w)).
Proof.
  intros Hfail Hok. simpl. destruct (h c w) as [[e | x] w'] eqn:Hc.
  - by apply Hfail.
  - rewrite resume_after. by apply Hok.
Qed.
End Stepping.

(** Name the property of the run [r], and start stepping through it. *)
Ltac symbolic r P :=
  pattern r;
  match goal with
  | |- ?Q r => set (P := Q)
  end;
  subst r;
  match goal with
  | |- P ?run => rewrite <- (resume_nil run)
  end;
  cbv beta iota zeta
      delta [script new_glass_material assign_glass_material bind call].

(** One call further; [leaf] closes the branch in which the call raised. *)
Ltac step_with leaf :=
  lazymatch goal with
  | |- _ (resume _ (run _ (Vis _ _) _)) =>
      apply resume_step; intros ? ? ?; [ leaf | cbv beta ]
  | |- _ (resume _ (run _ (let '(_, _) := ?x in _) _)) =>
      destruct x as [? ?]
  end.

Ltac selector_cases cfg :=
  destruct (String.eqb_spec (stereo_setup cfg) "symmetric");
  [ | destruct (String.eqb_spec (stereo_setup cfg) "faceon") ].

Ltac is_prefix := eexists; reflexivity.

(** ** C1: rejection of an unknown stereo-rig selector *)

(** C1, as amended.  For every stereo_setup outside "symmetric" and
    "faceon", on every host: the run never completes; it issues only the
    calls of lines 33-95 (no stereo camera pair is constructed or added,
    nothing is saved, lit, textured or rendered); and when those calls
    succeed it ends in the script's own ValueError
    "Unknown stereo_setup: <value>", raised after the scene, both parts and
    the camera data have been constructed. *)
Theorem unknown_stereo_setup_rejected_after_scene_construction :
  forall (W : Type) (h : Handler W) (w : W) (cfg : Config),
    stereo_setup cfg <> "symmetric" ->
    stereo_setup cfg <> "faceon" ->
    let r := run h (script cfg) w in
    completed r = false
    /\ map callee (calls r) `prefix_of` pre_selection_callees
    /\ (forall e, outcome r = ScriptRaised e ->
          e = ValueError ("Unknown stereo_setup: " ++ stereo_setup cfg)
          /\ map callee (calls r) = pre_selection_callees)
    /\ (forallb succeeded (trace r) = true ->
          outcome r
          = ScriptRaised (ValueError ("Unknown stereo_setup: " ++ stereo_setup cfg))).
Proof.
  intros W h w cfg Hs Hf r. symbolic r P.
  selector_cases cfg; try contradiction.
  do 17 step_with
    ltac:(by subst P; cbn; repeat split; first [ is_prefix | intros; discriminate ]).
  subst P; cbn -[String.append].
  repeat split; first [ is_prefix | congruence ].
Qed.

Lemma unknown_stereo_setup_rejected_witness :
  "foo" <> "symmetric" /\ "foo" <> "faceon"
  /\ completed (run Studio.handle (script (Studio.with_stereo_setup "foo"))
                    Studio.initial) = false.
Proof.
  assert (Hs : "foo" <> "symmetric") by discriminate.
  assert (Hf : "foo" <> "faceon") by discriminate.
  exact (conj Hs (conj Hf
           (proj1 (unknown_stereo_setup_rejected_after_scene_construction
                     _ Studio.handle Studio.initial
                     (Studio.with_stereo_setup "foo") Hs Hf)))).
Defined.

(** C1 as stated fails: with stereo_setup = "foo" the script does end in
    ValueError "Unknown stereo_setup: foo", but by then it has constructed
    the scene (line 78), the part and the window (lines 81-82) and the
    camera data (line 90). *)
Lemma unknown_stereo_setup_scene_already_constructed :
  raised (run Studio.handle (script (Studio.with_stereo_setup "foo"))
              Studio.initial)
  = Some (ValueError "Unknown stereo_setup: foo")
  /\ List.filter constructs_camera_or_scene_object
       (calls (run Studio.handle (script (Studio.with_stereo_setup "foo"))
                   Studio.initial))
     = [ Ext Scene; Ext (add_part 9%positive 7%positive 3);
         Ext (add_part 9%positive 8%positive 3);
         Ext (CameraData (cam_spec source_config)) ].
Proof. split; vm_compute; reflexivity. Qed.

(** ** C2: the selector decides the camera-pair constructor *)

Ltac routing_done P :=
  subst P; cbn -[String.append]; repeat split; intros; try congruence;
  first [ by left | solve [ right; eexists; split; reflexivity ] | reflexivity ].

(** C2.  On every host and for every stereo_setup, the selector alone
    decides the constructor.  With "symmetric", a run in which
    sens.CameraData has returned cam_data_0 makes exactly the one call
    symmetric_stereo_cameras(cam_data_0, 15.0) and no face-on call; with
    "faceon", it makes exactly the one call
    faceon_stereo_cameras(cam_data_0, 10.0) and no symmetric call; a run
    that ended before sens.CameraData returned makes neither call; any
    other value of the selector leads to neither call; and a run that
    completes has made exactly one such call. *)
Theorem stereo_constructor_follows_selector :
  forall (W : Type) (h : Handler W) (w : W) (cfg : Config),
    let r := run h (script cfg) w in
    let cs := List.filter is_stereo_constructor (calls r) in
    (stereo_setup cfg = "symmetric" ->
       (refs_returned is_CameraData (trace r) = [] /\ cs = [])
       \/ exists cam, refs_returned is_CameraData (trace r) = [cam]
                      /\ cs = [Ext (symmetric_stereo_cameras cam 15.0)])
    /\ (stereo_setup cfg = "faceon" ->
          (refs_returned is_CameraData (trace r) = [] /\ cs = [])
          \/ exists cam, refs_returned is_CameraData (trace r) = [cam]
                         /\ cs = [Ext (faceon_stereo_cameras cam 10.0)])
    /\ (stereo_setup cfg <> "symmetric" -> stereo_setup cfg <> "faceon" ->
          cs = [])
    /\ (completed r = true -> length cs = 1%nat).
Proof.
  intros W h w cfg r. symbolic r P.
  selector_cases cfg; repeat step_with ltac:(routing_done P); routing_done P.
Qed.

Lemma stereo_constructor_follows_selector_witness :
  List.filter is_stereo_constructor
    (calls (run Studio.handle (script (Studio.with_stereo_setup "symmetric"))
                Studio.initial))
  = [Ext (symmetric_stereo_cameras 12%positive 15.0)]
  /\ List.filter is_stereo_constructor
       (calls (run Studio.handle (script (Studio.with_stereo_setup "faceon"))
                   Studio.initial))
     = [Ext (faceon_stereo_cameras 12%positive 10.0)].
Proof.
  split.
  - destruct (proj1 (stereo_constructor_follows_selector
                       _ Studio.handle Studio.initial
                       (Studio.with_stereo_setup "symmetric")) eq_refl)
      as [[Hnone _] | (cam & Hcam & Hcalls)].
    + vm_compute in Hnone. discriminate Hnone.
    + vm_compute in Hcam. injection Hcam as <-. exact Hcalls.
  - destruct (proj1 (proj2 (stereo_constructor_follows_selector
                              _ Studio.handle Studio.initial
                              (Studio.with_stereo_setup "faceon"))) eq_refl)
      as [[Hnone _] | (cam & Hcam & Hcalls)].
    + vm_compute in Hnone. discriminate Hnone.
    + vm_compute in Hcam. injection Hcam as <-. exact Hcalls.
Defined.

(** The selector is compared as written: another spelling is rejected. *)
Example studio_selector_is_exact :
  raised (run Studio.handle (script (Studio.with_stereo_setup "Symmetric"))
              Studio.initial)
  = Some (ValueError "Unknown stereo_setup: Symmetric").
Proof. vm_compute. reflexivity. Qed.

(** ** The unit scaling the script asks for *)

(** On every host the script asks for a scaling of length units at most
    twice, each time by 1000.0 and for the components disp_x, disp_y and
    disp_z; it never asks for the inverse scaling. *)
Lemma script_scales_by_1000_only :
  forall (W : Type) (h : Handler W) (w : W) (cfg : Config),
    let r := run h (script cfg) w in
    scalings (calls r)
    `prefix_of` [ (1000.0%Q, ["disp_x"; "disp_y"; "disp_z"]);
                  (1000.0%Q, ["disp_x"; "disp_y"; "disp_z"]) ].
Proof.
  intros W h w cfg r. symbolic r P.
  selector_cases cfg;
    repeat step_with ltac:(subst P; cbn; is_prefix);
    subst P; cbn; is_prefix.
Qed.

(** ** C4: the renderer's sampling reaches neither the calibration nor
       the image file names *)

Section Determinism.
Context {W : Type} (h : Handler W) (sim coarse : W -> W -> Prop).

(** [sim] relates two worlds that differ only in the renderer's sampling
    state; [coarse] relates two worlds that hold the same output files
    but may differ in whatever a rendering made of the sampling. *)
Hypothesis sim_coarse : forall w1 w2, sim w1 w2 -> coarse w1 w2.

(** No call but the rendering reads or changes the sampling state. *)
Hypothesis before_rendering :
  forall c w1 w2,
    is_render_deformed_images c = false ->
    sim w1 w2 ->
    (h c w1).1 = (h c w2).1 /\ sim (h c w1).2 (h c w2).2.

(** The rendering answers alike and writes the same files, and leaves
    the worlds different in what it sampled. *)
Hypothesis rendering :
  forall c w1 w2,
    is_render_deformed_images c = true ->
    sim w1 w2 ->
    (h c w1).1 = (h c w2).1 /\ coarse (h c w1).2 (h c w2).2.

(** What follows the rendering does not look at what was sampled. *)
Hypothesis after_rendering :
  forall c w1 w2,
    follows_rendering c = true ->
    coarse w1 w2 ->
    (h c w1).1 = (h c w2).1 /\ coarse (h c w1).2 (h c w2).2.



End Determinism.








(** The sampler does end in different states in the two runs. *)
Example studio_sampling_differs :
  Studio.sampling
    (ext (final (run Studio.handle (script source_config) Studio.initial)))
  <> Studio.sampling
       (ext (final (run Studio.handle (script source_config)
                        Studio.initial_sampler_advanced))).
Proof. vm_compute. discriminate. Qed.

(** A program that saves the calibration after rendering is not of the
    kind the statement is about. *)
Example calibration_after_rendering_is_excluded :
  ~ nothing_else_after_rendering
      (call (render_deformed_images 1%positive 2%positive 3 4%positive
               5%positive false) ;;;
       call (save_calibration 6%positive (PathOf "out"))).
Proof. simpl. intros H. destruct (H tt) as [Hc _]. discriminate Hc. Qed.

(** ** C5: the files the script names *)

(** C5 as stated fails: the script hands two files to the
    simulation-result reader (lines 34 and 37), not one. *)
Lemma script_reads_two_simulation_files :
  paths_read (calls (run Studio.handle (script source_config) Studio.initial))
  = [ PathOf "pyvale/data/render_mechanical_3d.e";
      PathJoin (PathOf "/work") "moose/input/circular_glass_out.e" ].
Proof. vm_compute. reflexivity. Qed.

(** C5, as amended.  On every host, a run that completes has read exactly
    two simulation files through the reader: the one
    dataset.render_mechanical_3d_path() returned and
    cwd/"moose/input/circular_glass_out.e".  Its remaining filesystem
    surface is one speckle image, the one dataset.dic_pattern_5mpx_path()
    returned, and one output directory, cwd/"blender/glass", named to
    save_calibration, RenderData and save_blender_file. *)
Theorem script_filesystem_surface :
  forall (W : Type) (h : Handler W) (w : W) (cfg : Config),
    let r := run h (script cfg) w in
    completed r = true ->
    exists data_path1 cwd1 cwd2 speckle : Path,
      paths_returned (is_callee "dataset.render_mechanical_3d_path") (trace r)
      = [data_path1]
      /\ paths_returned (is_callee "Path.cwd") (trace r) = [cwd1; cwd2]
      /\ paths_returned (is_callee "dataset.dic_pattern_5mpx_path") (trace r)
         = [speckle]
      /\ paths_read (calls r)
         = [data_path1; PathJoin cwd1 "moose/input/circular_glass_out.e"]
      /\ speckle_paths (calls r) = [speckle]
      /\ output_dirs (calls r)
         = [ PathJoin cwd2 "blender/glass"; PathJoin cwd2 "blender/glass";
             PathJoin cwd2 "blender/glass" ].
Proof.
  intros W h w cfg r. symbolic r P.
  selector_cases cfg;
    repeat step_with ltac:(subst P; cbn; intros; discriminate);
    subst P; cbn -[String.append];
    first [ intros; discriminate
          | intros _; do 4 eexists; repeat split; reflexivity ].
Qed.

Lemma script_filesystem_surface_witness :
  completed (run Studio.handle (script source_config) Studio.initial) = true
  /\ exists data_path1 cwd1 cwd2 speckle : Path,
      paths_returned (is_callee "dataset.render_mechanical_3d_path")
        (trace (run Studio.handle (script source_config) Studio.initial))
      = [data_path1]
      /\ paths_returned (is_callee "Path.cwd")
           (trace (run Studio.handle (script source_config) Studio.initial))
         = [cwd1; cwd2]
      /\ paths_returned (is_callee "dataset.dic_pattern_5mpx_path")
           (trace (run Studio.handle (script source_config) Studio.initial))
         = [speckle]
      /\ paths_read
           (calls (run Studio.handle (script source_config) Studio.initial))
         = [data_path1; PathJoin cwd1 "moose/input/circular_glass_out.e"]
      /\ speckle_paths
           (calls (run Studio.handle (script source_config) Studio.initial))
         = [speckle]
      /\ output_dirs
           (calls (run Studio.handle (script source_config) Studio.initial))
         = [ PathJoin cwd2 "blender/glass"; PathJoin cwd2 "blender/glass";
             PathJoin cwd2 "blender/glass" ].
Proof.
  assert (Hdone : completed (run Studio.handle (script source_config)
                                 Studio.initial) = true)
    by (vm_compute; reflexivity).
  exact (conj Hdone
           (script_filesystem_surface _ Studio.handle Studio.initial
              source_config Hdone)).
Defined.

(** ** C6: the glass material goes to the object named "Part.001" *)

(** No [bpy.data] operation of the script removes a material; none but
    the [active_material] assignment changes an object. *)
Lemma bpy_handle_frame (api : BlenderAPI) (c : BpyCall) (d : BlendData) :
  (is_set_active_material c = false ->
     objects (bpy_handle api c d).2 = objects d)
  /\ (forall k, is_Some (materials d !! k) ->
                is_Some (materials (bpy_handle api c d).2 !! k)).
Proof.
  split.
  - destruct c; simpl; intros Hc; try discriminate Hc;
      unfold find_tree, find_node, put_tree;
      repeat case_match; simpl; done.
  - intros k Hk.
    destruct c; simpl; unfold find_tree, find_node, put_tree;
      repeat case_match; simpl; try done;
      apply lookup_insert_is_Some'; by right.
Qed.

Lemma host_bpy_frame {E : Type} (api : BlenderAPI) (eh : ExtHandler E)
    (c : BpyCall) (w w' : World E) (a : Exc + BpyRes c) :
  host api eh (Bpy c) w = (a, w') ->
  ext w' = ext w
  /\ (is_set_active_material c = false ->
        objects (blend w') = objects (blend w))
  /\ (forall k, is_Some (materials (blend w) !! k) ->
                is_Some (materials (blend w') !! k)).
Proof.
  unfold host. pose proof (bpy_handle_frame api c (blend w)) as [Hobj Hmat].
  destruct (bpy_handle api c (blend w)) as [a' d]; simpl in *.
  intros [= <- <-]; simpl. by repeat split.
Qed.

Lemma host_materials_getitem {E : Type} (api : BlenderAPI) (eh : ExtHandler E)
    (k : string) (w w' : World E) (m : string) :
  host api eh (Bpy (materials_getitem k)) w = (inr m, w') ->
  is_Some (materials (blend w') !! k).
Proof.
  unfold host; simpl. destruct (materials (blend w) !! k) eqn:Hk; simpl.
  - intros [= <- <-]; simpl. by rewrite Hk.
  - discriminate.
Qed.

(** When lines 137-144 run to their end, on any host, a material is
    registered as "Material.001", and the objects and everything outside
    bpy.data are as before. *)
Lemma new_glass_material_leaves :
  forall (E : Type) (api : BlenderAPI) (eh : ExtHandler E) (w : World E)
         (ior : Q),
    let r := run (host api eh) (new_glass_material ior) w in
    completed r = true ->
    is_Some (materials (blend (final r)) !! "Material.001")
    /\ objects (blend (final r)) = objects (blend w)
    /\ ext (final r) = ext w.
Proof.
  intros E api eh w ior r. symbolic r P.
  repeat (apply resume_step; intros ? ? Hc;
          [ subst P; cbn; discriminate
          | let Hobj := fresh "Hobj" in
            pose proof (host_bpy_frame _ _ _ _ _ _ Hc) as (? & Hobj & ?);
            specialize (Hobj eq_refl);
            try (pose proof (host_materials_getitem _ _ _ _ _ _ Hc));
            clear Hc ]).
  subst P; cbn. intros _. repeat split; [ auto 10 | congruence | congruence ].
Qed.

(** Wherever the script assigns an active material, on any host, the
    object is the one the lookup of "Part.001" returned. *)
Lemma script_active_material_target :
  forall (W : Type) (h : Handler W) (w : W) (cfg : Config),
    let r := run h (script cfg) w in
    active_material_targets (calls r) = []
    \/ exists o m,
         List.filter is_objects_getitem (calls r)
         = [Bpy (objects_getitem "Part.001")]
         /\ names_returned is_objects_getitem (trace r) = [o]
         /\ last (names_returned is_materials_getitem (trace r)) = Some m
         /\ active_material_targets (calls r) = [(o, m)].
Proof.
  intros W h w cfg r. symbolic r P.
  selector_cases cfg;
    repeat step_with
      ltac:(subst P; cbn;
            first [ by left
                  | right; do 2 eexists; repeat split; reflexivity ]);
    subst P; cbn;
    first [ by left | right; do 2 eexists; repeat split; reflexivity ].
Qed.

(** C6.  On every host, the object whose active material the script sets
    is the one that the lookup of the name "Part.001" in bpy.data.objects
    returned, whatever add_part returned; and whenever lines 137-144 have
    run to their end, line 145 behaves as follows: if an object is
    registered as "Part.001" the lookup succeeds and the active material
    of that object becomes "Material.001", all else in bpy.data staying
    as it was; if none is, the assignment fails with KeyError "Part.001"
    and changes nothing. *)
Theorem glass_material_assigned_by_object_name :
  (forall (W : Type) (h : Handler W) (w : W) (cfg : Config),
      let r := run h (script cfg) w in
      active_material_targets (calls r) = []
      \/ exists o m,
           List.filter is_objects_getitem (calls r)
           = [Bpy (objects_getitem "Part.001")]
           /\ names_returned is_objects_getitem (trace r) = [o]
           /\ last (names_returned is_materials_getitem (trace r)) = Some m
           /\ active_material_targets (calls r) = [(o, m)])
  /\ (forall (E : Type) (api : BlenderAPI) (eh : ExtHandler E) (w : World E)
             (ior : Q),
        let r1 := run (host api eh) (new_glass_material ior) w in
        completed r1 = true ->
        let r := run (host api eh) assign_glass_material (final r1) in
        (forall o, objects (blend w) !! "Part.001" = Some o ->
           outcome r = Done tt
           /\ calls r
              = [ Bpy (materials_getitem "Material.001");
                  Bpy (objects_getitem "Part.001");
                  Bpy (set_active_material "Part.001" "Material.001") ]
           /\ objects (blend (final r))
              = <["Part.001" := {| active_material := Some "Material.001" |}]>
                  (objects (blend w))
           /\ materials (blend (final r)) = materials (blend (final r1)))
        /\ (objects (blend w) !! "Part.001" = None ->
              outcome r
              = CallFailed (objects_getitem "Part.001") (KeyError "Part.001")
              /\ blend (final r) = blend (final r1)
              /\ active_material_targets (calls r) = [])).
Proof.
  split; [ exact script_active_material_target | ].
  intros E api eh w ior r1 Hdone r.
  destruct (new_glass_material_leaves E api eh w ior Hdone)
    as ([mat Hmat] & Hobjs & _).
  fold r1 in Hmat, Hobjs. subst r. generalize dependent (final r1).
  intros w1 Hmat Hobjs. split.
  - intros o Ho. rewrite <- Hobjs in Ho |- *.
    unfold assign_glass_material, host; cbn. rewrite Hmat; cbn.
    rewrite Ho; cbn. rewrite Ho, Hmat; cbn. by repeat split.
  - intros Ho. rewrite <- Hobjs in Ho.
    unfold assign_glass_material, host; cbn. rewrite Hmat; cbn.
    rewrite Ho; cbn. by repeat split.
Qed.

(** With no part in the scene the lookup of "Part.001" raises. *)
Example studio_no_part_no_glass :
  outcome
    (run Studio.handle
         (new_glass_material (glass_ior source_config) ;;;
          assign_glass_material)
         Studio.initial)
  = CallFailed (objects_getitem "Part.001") (KeyError "Part.001").
Proof. vm_compute. reflexivity. Qed.

(** On the small host, in a new session, the window is "Part.001". *)
Example studio_glass_on_part_001 :
  map_to_list
    (objects
       (blend (final (run Studio.handle (script source_config) Studio.initial))))
  = [ ("Part.001", {| active_material := Some "Material.001" |});
      ("Part", {| active_material := None |}) ].
Proof. vm_compute. reflexivity. Qed.

(** In a session where an object "Part" is left over, the part becomes
    "Part.001" and the window "Part.002": the glass goes to the part. *)
Example studio_glass_follows_the_name :
  (objects
     (blend (final (run Studio.handle (script source_config)
                        Studio.initial_with_leftover_part)))
   !! "Part.001",
   objects
     (blend (final (run Studio.handle (script source_config)
                        Studio.initial_with_leftover_part)))
   !! "Part.002")
  = (Some {| active_material := Some "Material.001" |},
     Some {| active_material := None |}).
Proof. vm_compute. reflexivity. Qed.

(** ** C7: exceptions of collaborator calls are not intercepted *)

Section Propagation.
Context {W : Type} (h : Handler W).

(** In a program without [try], the first call that raises ends the run
    with that very exception, in the world the call left; no call is
    issued after it. *)
Lemma handler_free_run {R : Type} (p : Prog R) :
  handler_free p ->
  forall w,
    Forall (faithful h) (trace (run h p w))
    /\ match outcome (run h p w) with
       | Done _ | ScriptRaised _ =>
           forallb succeeded (trace (run h p w)) = true
       | CallFailed c e =>
           exists t w1 w2,
             trace (run h p w)
             = t ++ [ {| ev_pre := w1; ev_call := c; ev_result := inl e;
                         ev_post := w2 |} ]
             /\ forallb succeeded t = true
             /\ final (run h p w) = w2
       end.
Proof.
  induction p as [R r | R e | R c k IH | A R body IHb hd IHh k IHk];
    intros Hfree w; simpl in *.
  - by split.
  - by split.
  - destruct (h c w) as [[e | x] w'] eqn:Hc.
    + split.
      * by repeat constructor.
      * by exists [], w, w'.
    + destruct (IH x (Hfree x) w') as [Hfaith Hout].
      destruct (run h (k x) w') as [o wf t]; simpl in *. split.
      * by constructor.
      * destruct o as [r | c' e | e]; simpl; try done.
        destruct Hout as (t' & w1 & w2 & Ht & Ht' & Hw). subst t wf.
        by exists ({| ev_pre := w; ev_call := c; ev_result := inr x;
                      ev_post := w' |} :: t'), w1, w2.
  - contradiction.
Qed.
End Propagation.

Lemma script_handler_free (cfg : Config) : handler_free (script cfg).
Proof.
  unfold script. selector_cases cfg; simpl; intros; try done;
    repeat match goal with
           | |- context [let '(_, _) := ?x in _] => destruct x
           end; simpl; by intros.
Qed.

(** The only exception the script itself raises is the ValueError of
    line 108, and no run issues more calls than the script has call
    sites. *)
Lemma script_own_exception :
  forall (W : Type) (h : Handler W) (w : W) (cfg : Config),
    let r := run h (script cfg) w in
    (forall e, outcome r = ScriptRaised e ->
       e = ValueError ("Unknown stereo_setup: " ++ stereo_setup cfg)
       /\ stereo_setup cfg <> "symmetric" /\ stereo_setup cfg <> "faceon")
    /\ (length (trace r) <=? 55)%nat = true.
Proof.
  intros W h w cfg r. symbolic r P.
  selector_cases cfg;
    repeat step_with
      ltac:(subst P; cbn; split; [ intros; discriminate | reflexivity ]);
    subst P; cbn -[String.append]; (split; [ | reflexivity ]);
    intros e' He'; first [ discriminate He' | by injection He' as <- ].
Qed.

(** C7.  On every host the script contains no try/except; every event of
    a run is one call put to the host with the host's own answer; when a
    collaborator call raises, the run ends with exactly that exception, in
    the world that call left, all earlier calls having succeeded and no
    call (no retry, no recovery) following it; and the only exception the
    script raises itself is the ValueError for a stereo_setup that is
    neither "symmetric" nor "faceon". *)
Theorem collaborator_failures_propagate_unhandled :
  forall (W : Type) (h : Handler W) (w : W) (cfg : Config),
    let r := run h (script cfg) w in
    handler_free (script cfg)
    /\ Forall (faithful h) (trace r)
    /\ (length (trace r) <= 55)%nat
    /\ match outcome r with
       | Done _ => forallb succeeded (trace r) = true
       | CallFailed c e =>
           exists t w1 w2,
             trace r
             = t ++ [ {| ev_pre := w1; ev_call := c; ev_result := inl e;
                         ev_post := w2 |} ]
             /\ forallb succeeded t = true
             /\ final r = w2
       | ScriptRaised e =>
           forallb succeeded (trace r) = true
           /\ e = ValueError ("Unknown stereo_setup: " ++ stereo_setup cfg)
           /\ stereo_setup cfg <> "symmetric"
           /\ stereo_setup cfg <> "faceon"
       end.
Proof.
  intros W h w cfg r.
  destruct (handler_free_run h (script cfg) (script_handler_free cfg) w)
    as [Hfaith Hout].
  destruct (script_own_exception W h w cfg) as [Hown Hlen].
  fold r in Hfaith, Hout, Hown, Hlen. apply Nat.leb_le in Hlen.
  split; [ apply script_handler_free | ].
  split; [ exact Hfaith | ].
  split; [ exact Hlen | ].
  destruct (outcome r) as [u | c e | e] eqn:Ho; try exact Hout.
  split; [ exact Hout | by apply Hown ].
Qed.

(** A missing input file: the reader's exception is the script's. *)
Example missing_simulation_file_propagates :
  outcome (run Studio.handle (script source_config)
               Studio.initial_without_glass_output)
  = CallFailed
      (ExodusReader
         (PathJoin (PathOf "/work") "moose/input/circular_glass_out.e"))
      (OtherError "FileNotFoundError" "ExodusReader")
  /\ length (trace (run Studio.handle (script source_config)
                        Studio.initial_without_glass_output)) = 5%nat.
Proof. split; vm_compute; reflexivity. Qed.

(** Had the reads been wrapped in [try], the run would have gone on. *)
Example a_handler_would_intercept :
  outcome
    (run Studio.handle
         (Try (call (ExodusReader (PathOf "nowhere")))
              (fun _ => Ret 1%positive) Ret)
         Studio.initial)
  = Done 1%positive.
Proof. vm_compute. reflexivity. Qed.

(** ** C8: only the window is deformed *)

Ltac frames_done Hframe :=
  intros part window Hparts Hdistinct;
  first
    [ discriminate Hparts
    | injection Hparts as -> ->;
      repeat (constructor; [ cbn; intros Hrender; try discriminate Hrender | ]);
      try constructor;
      match goal with
      | Hc : ?h (Ext (render_deformed_images ?s ?m ?d ?rd ?p ?st)) ?w = (_, ?w')
        |- _ =>
          specialize (Hframe s m d rd p st w part Hdistinct);
          rewrite Hc in Hframe; exact Hframe
      end ].

Ltac deformation_done P Hframe :=
  subst P; cbn;
  split; [ first [ by left
                 | right; do 4 eexists; repeat split; reflexivity ] | ];
  split; [ first [ intros; discriminate | by intros _ ] | ];
  frames_done Hframe.

(** C8.  On every host on which render_deformed_images changes the
    geometry of no object but the one passed as part: the script calls
    render_deformed_images at most once (exactly once in a run that
    completes), with render_mesh2, the second mesh created, and window,
    the second part added; and whenever add_part returned two distinct
    objects, the geometry of the first, part, is the same after each
    render_deformed_images call as before it. *)
Theorem only_window_is_deformed :
  forall (W G : Type) (h : Handler W) (geometry : W -> Ref -> G),
    (forall scene mesh dim render_data p stage w o,
        o <> p ->
        geometry
          (h (render_deformed_images scene mesh dim render_data p stage) w).2 o
        = geometry w o) ->
    forall (w : W) (cfg : Config),
      let r := run h (script cfg) w in
      (deformed (calls r) = [] \/
       exists mesh1 mesh2 part window,
         refs_returned is_create_render_mesh (trace r) = [mesh1; mesh2]
         /\ refs_returned is_add_part (trace r) = [part; window]
         /\ deformed (calls r) = [(mesh2, window)])
      /\ (completed r = true -> deformed (calls r) <> [])
      /\ (forall part window,
            refs_returned is_add_part (trace r) = [part; window] ->
            part <> window ->
            Forall (fun ev =>
                      is_render_deformed_images (ev_call ev) = true ->
                      geometry (ev_post ev) part = geometry (ev_pre ev) part)
                   (trace r)).
Proof.
  intros W G h geometry Hframe w cfg r. symbolic r P.
  selector_cases cfg;
    repeat step_with ltac:(deformation_done P Hframe);
    deformation_done P Hframe.
Qed.

Lemma Studio_render_frame :
  forall scene mesh dim render_data p stage (w : World Studio.Store) o,
    o <> p ->
    count_occ Pos.eq_dec
      (Studio.displaced
         (ext (Studio.handle
                 (render_deformed_images scene mesh dim render_data p stage)
                 w).2)) o
    = count_occ Pos.eq_dec (Studio.displaced (ext w)) o.
Proof.
  intros scene mesh dim render_data p stage w o Hne. simpl.
  destruct (List.find _ _) as [[? ?] | ]; simpl; try done.
  by destruct (Pos.eq_dec p o); [ subst | ].
Qed.

Lemma only_window_is_deformed_witness :
  (forall scene mesh dim render_data p stage (w : World Studio.Store) o,
      o <> p ->
      count_occ Pos.eq_dec
        (Studio.displaced
           (ext (Studio.handle
                   (render_deformed_images scene mesh dim render_data p stage)
                   w).2)) o
      = count_occ Pos.eq_dec (Studio.displaced (ext w)) o)
  /\ Forall (fun ev =>
               is_render_deformed_images (ev_call ev) = true ->
               count_occ Pos.eq_dec (Studio.displaced (ext (ev_post ev)))
                 10%positive
               = count_occ Pos.eq_dec (Studio.displaced (ext (ev_pre ev)))
                   10%positive)
            (trace (run Studio.handle (script source_config) Studio.initial)).
Proof.
  split; [ exact Studio_render_frame | ].
  apply (proj2 (proj2
           (only_window_is_deformed _ _ Studio.handle
              (fun w o => count_occ Pos.eq_dec (Studio.displaced (ext w)) o)
              Studio_render_frame Studio.initial source_config)))
    with (window := 11%positive).
  - vm_compute. reflexivity.
  - discriminate.
Defined.

(** On the small host the window is displaced once and the part never. *)
Example studio_displaces_the_window_only :
  Studio.displaced
    (ext (final (run Studio.handle (script source_config) Studio.initial)))
  = [11%positive]
  /\ refs_returned is_add_part
       (trace (run Studio.handle (script source_config) Studio.initial))
     = [10%positive; 11%positive].
Proof. split; vm_compute; reflexivity. Qed.

(** ** C9: the calibration is saved before light, material and renderer *)

Section Calibration.
Context {W : Type} (h : Handler W).

(** Two runs from the same world that are about to issue the same call
    get the same answer and go on from the same world. *)
Lemma resume_step2 {R : Type} (P : Run W R -> Run W R -> Prop)
    (past1 past2 : list (Event W)) (c : Call) (k1 k2 : Res c -> Prog R)
    (w : W) :
  (forall e w', h c w = (inl e, w') ->
     let failed :=
       {| outcome := CallFailed c e; final := w';
          trace := [ {| ev_pre := w; ev_call := c; ev_result := inl e;
                        ev_post := w' |} ] |} in
     P (resume past1 failed) (resume past2 failed)) ->
  (forall x w', h c w = (inr x, w') ->
     let ev := {| ev_pre := w; ev_call := c; ev_result := inr x;
                  ev_post := w' |} in
     P (resume (ev :: past1) (run h (k1 x) w'))
       (resume (ev :: past2) (run h (k2 x) w'))) ->
  P (resume past1 (run h (Vis c k1) w)) (resume past2 (run h (Vis c k2) w)).
Proof.
  intros Hfail Hok. simpl. destruct (h c w) as [[e | x] w'] eqn:Hc.
  - by apply Hfail.
  - rewrite !resume_after. by apply Hok.
Qed.

Lemma trace_resume {R : Type} (past : list (Event W)) (r : Run W R) :
  trace (resume past r) = rev past ++ trace r.
Proof. destruct r; simpl. by rewrite rev_append_rev. Qed.

Lemma upto_calibration_app (t t' : list (Event W)) :
  existsb (fun ev => is_save_calibration (ev_call ev)) t = true ->
  upto_calibration (t ++ t') = upto_calibration t.
Proof.
  induction t as [ | ev t IH]; simpl; [ done | ].
  destruct (is_save_calibration (ev_call ev)); simpl; [ done | ].
  intros Ht. by rewrite IH.
Qed.

Lemma last_calibrated_none (t : list (Event W)) (w0 : W) :
  existsb (fun ev => is_save_calibration (ev_call ev)) t = false ->
  last_calibrated t w0 = w0.
Proof.
  revert w0. induction t as [ | ev t IH]; intros w0; simpl; [ done | ].
  destruct (is_save_calibration (ev_call ev)); simpl; [ done | ].
  apply IH.
Qed.

Lemma last_calibrated_upto (t : list (Event W)) (w0 : W) :
  (length (List.filter (fun ev => is_save_calibration (ev_call ev)) t) <= 1)%nat ->
  last_calibrated t w0 = last_calibrated (upto_calibration t) w0.
Proof.
  revert w0. induction t as [ | ev t IH]; intros w0; simpl; [ done | ].
  destruct (is_save_calibration (ev_call ev)) eqn:Hev; simpl.
  - rewrite Hev. intros Hlen. apply last_calibrated_none.
    destruct (existsb _ t) eqn:Hex; [ | done ].
    apply existsb_exists in Hex as (ev' & Hin & Hev').
    assert (In ev' (List.filter
                      (fun ev => is_save_calibration (ev_call ev)) t))
      by (apply filter_In; by split).
    destruct (List.filter _ t); simpl in *; [ done | lia ].
  - rewrite Hev. apply IH.
Qed.

Section Frame.
Context {File : Type} (calibration_file : W -> File).
Hypothesis only_save_calibration_writes :
  forall c w,
    is_save_calibration c = false ->
    calibration_file (h c w).2 = calibration_file w.

(** What the calibration file holds at the end of a run is what the
    latest [save_calibration] left. *)
Lemma calibration_file_final {R : Type} (p : Prog R) :
  handler_free p ->
  forall w w0,
    calibration_file w = calibration_file w0 ->
    calibration_file (final (run h p w))
    = calibration_file (last_calibrated (trace (run h p w)) w0).
Proof.
  induction p as [R r | R e | R c k IH | A R body IHb hd IHh k IHk];
    intros Hfree w w0 Hw; simpl in *; try done.
  pose proof (only_save_calibration_writes c w) as Hc.
  destruct (h c w) as [[e | x] w'] eqn:Hcw; simpl in *.
  - destruct (is_save_calibration c); [ done | ].
    by rewrite Hc.
  - specialize (IH x (Hfree x) w').
    destruct (run h (k x) w') as [o wf t]; simpl in *.
    destruct (is_save_calibration c).
    + by apply IH.
    + apply IH. by rewrite Hc.
Qed.
End Frame.
End Calibration.

Ltac symbolic2 r1 r2 P :=
  pattern r1, r2;
  match goal with
  | |- ?Q r1 r2 => set (P := Q)
  end;
  subst r1 r2;
  match goal with
  | |- P ?run1 ?run2 =>
      rewrite <- (resume_nil run1), <- (resume_nil run2)
  end;
  cbv beta iota zeta
      delta [script new_glass_material assign_glass_material bind call
             stereo_setup cam_spec light_spec glass_ior render_threads
             render_samples].

Ltac step2_with leaf :=
  lazymatch goal with
  | |- _ (resume _ (run _ (Vis _ _) _)) (resume _ (run _ (Vis _ _) _)) =>
      apply resume_step2; intros ? ? ?; [ leaf | cbv beta zeta ]
  | |- _ (resume _ (run _ (let '(_, _) := ?x in _) _)) _ =>
      destruct x as [? ?]
  end.

(** A run of the script saves the calibration at most once, and nothing
    that precedes the save takes a light, speckle, material or render
    setting. *)
Lemma script_calibrates_once :
  forall (W : Type) (h : Handler W) (w : W) (cfg : Config),
    let r := run h (script cfg) w in
    (length (List.filter (fun ev => is_save_calibration (ev_call ev)) (trace r))
     <=? 1)%nat = true
    /\ forallb (fun c => negb (configures_light_material_render c))
         (map ev_call (upto_calibration (trace r))) = true.
Proof.
  intros W h w cfg r. symbolic r P.
  selector_cases cfg;
    repeat step_with ltac:(by subst P; cbn);
    by subst P; cbn.
Qed.

(** Two runs that share the camera data and the selector are the same run
    up to and including [save_calibration]. *)
Lemma script_same_until_calibration :
  forall (W : Type) (h : Handler W) (w : W) (cfg1 cfg2 : Config),
    cam_spec cfg1 = cam_spec cfg2 ->
    stereo_setup cfg1 = stereo_setup cfg2 ->
    let r1 := run h (script cfg1) w in
    let r2 := run h (script cfg2) w in
    upto_calibration (trace r1) = upto_calibration (trace r2).
Proof.
  intros W h w cfg1 cfg2 Hcam Hsel r1 r2.
  destruct cfg1 as [s1 cam1 l1 i1 n1 m1], cfg2 as [s2 cam2 l2 i2 n2 m2].
  cbn in Hcam, Hsel. subst cam2 s2. symbolic2 r1 r2 P.
  destruct (String.eqb_spec s1 "symmetric");
    [ | destruct (String.eqb_spec s1 "faceon") ];
    repeat step2_with ltac:(by subst P; cbn);
    subst P; cbn beta; rewrite ?trace_resume;
    first [ rewrite !upto_calibration_app; [ done | done .. ]
          | by cbn ].
Qed.

(** C9.  On every host, two runs from the same world whose configurations
    agree on the camera data and on stereo_setup, whatever their light,
    glass and render settings, are the same run up to and including
    save_calibration, so that save_calibration finds and leaves the same
    world in both; before it no call takes a light, speckle, material or
    render setting; and where save_calibration is the only call that
    writes the calibration file, the file holds the same contents at the
    end of both runs. *)
Theorem calibration_ignores_light_material_render :
  forall (W File : Type) (h : Handler W) (calibration_file : W -> File),
    (forall c w,
        is_save_calibration c = false ->
        calibration_file (h c w).2 = calibration_file w) ->
    forall (w : W) (cfg1 cfg2 : Config),
      cam_spec cfg1 = cam_spec cfg2 ->
      stereo_setup cfg1 = stereo_setup cfg2 ->
      let r1 := run h (script cfg1) w in
      let r2 := run h (script cfg2) w in
      upto_calibration (trace r1) = upto_calibration (trace r2)
      /\ forallb (fun c => negb (configures_light_material_render c))
           (map ev_call (upto_calibration (trace r1))) = true
      /\ calibration_file (final r1) = calibration_file (final r2).
Proof.
  intros W File h calibration_file Hframe w cfg1 cfg2 Hcam Hsel r1 r2.
  pose proof (script_same_until_calibration W h w cfg1 cfg2 Hcam Hsel) as Hsame.
  destruct (script_calibrates_once W h w cfg1) as [Honce1 Hbefore].
  destruct (script_calibrates_once W h w cfg2) as [Honce2 _].
  cbv zeta in Hsame. fold r1 in Hsame, Honce1, Hbefore.
  fold r2 in Hsame, Honce2.
  apply Nat.leb_le in Honce1, Honce2.
  split; [ exact Hsame | ]. split; [ exact Hbefore | ].
  unfold r1 at 1, r2 at 1.
  rewrite !(calibration_file_final h calibration_file Hframe _
              (script_handler_free _) w w eq_refl).
  fold r1 r2.
  rewrite (last_calibrated_upto (trace r1)) by exact Honce1.
  rewrite (last_calibrated_upto (trace r2)) by exact Honce2.
  rewrite Hsame. reflexivity.
Qed.

Lemma Studio_calibration_frame :
  forall c (w : World Studio.Store),
    is_save_calibration c = false ->
    Studio.calibration (ext (Studio.handle c w).2)
    = Studio.calibration (ext w).
Proof.
  intros [c | c] w Hc.
  - destruct c; try discriminate Hc; simpl; try done;
      repeat match goal with
             | |- context [bool_decide ?P] => destruct (bool_decide P)
             | |- context [List.find ?f ?l] =>
                 destruct (List.find f l) as [[? ?] | ]
             end; done.
  - unfold Studio.handle, host. by destruct (bpy_handle _ c _).
Qed.

Lemma calibration_ignores_light_material_render_witness :
  (forall c (w : World Studio.Store),
      is_save_calibration c = false ->
      Studio.calibration (ext (Studio.handle c w).2)
      = Studio.calibration (ext w))
  /\ cam_spec source_config = cam_spec Studio.dim_config
  /\ stereo_setup source_config = stereo_setup Studio.dim_config
  /\ Studio.calibration
       (ext (final (run Studio.handle (script source_config) Studio.initial)))
     = Studio.calibration
         (ext (final (run Studio.handle (script Studio.dim_config)
                          Studio.initial))).
Proof.
  split; [ exact Studio_calibration_frame | ].
  split; [ reflexivity | ].
  split; [ reflexivity | ].
  exact (proj2 (proj2
           (calibration_ignores_light_material_render _ _ Studio.handle
              (fun w => Studio.calibration (ext w)) Studio_calibration_frame
              Studio.initial source_config Studio.dim_config
              eq_refl eq_refl))).
Defined.

(** ** C10: the glass material *)

(** Work out the host's answer [H] to a [bpy.data] call from the facts at
    hand. *)
Ltac bpy_facts H :=
  repeat (progress
    (unfold find_node, find_tree, has_socket, put_tree, is_input in H;
     cbn -[unique_name default_node_tree node_of_type] in H;
     repeat match goal with
       | Hx : ?l = _ |- _ =>
           lazymatch Hx with
           | H => fail
           | _ => lazymatch type of H with context [l] => rewrite Hx in H end
           end
       | Hx : ?P |- _ =>
           lazymatch type of H with
           | context [bool_decide P] =>
               rewrite (bool_decide_eq_true_2 P Hx) in H
           end
       | _ =>
           lazymatch type of H with
           | context [(<[?k := _]> _) !! ?k] => rewrite lookup_insert_eq in H
           | context [(<[_ := _]> _) !! _] =>
               rewrite lookup_insert_ne in H by done
           end
       end)).

Ltac bpy_step :=
  apply resume_step; intros ? ? Hc; unfold host in Hc; bpy_facts Hc;
  [ try discriminate Hc | try (injection Hc as <- <-) ].

(** C10 as stated fails: in a session where "Material.001" is already a
    glass material with IOR 1.45, lines 137-144 run to their end, the new
    node is called "Glass BSDF.001" and gets IOR 1.3777, and the link is
    made from the node called "Glass BSDF", whose IOR is still 1.45. *)
Lemma glass_link_comes_from_the_node_named_glass_bsdf :
  outcome (run Studio.handle (new_glass_material (glass_ior source_config))
               Studio.initial_with_glass_material) = Done tt
  /\ links_of
       (blend (final (run Studio.handle
                          (new_glass_material (glass_ior source_config))
                          Studio.initial_with_glass_material)))
       "Material.001"
     = [ {| from_node := "Glass BSDF"; from_socket := "BSDF";
            to_node := "Material Output"; to_socket := "Surface" |} ]
  /\ node_ior
       (blend (final (run Studio.handle
                          (new_glass_material (glass_ior source_config))
                          Studio.initial_with_glass_material)))
       "Material.001" "Glass BSDF"
     = Some 1.45%Q
  /\ node_ior
       (blend (final (run Studio.handle
                          (new_glass_material (glass_ior source_config))
                          Studio.initial_with_glass_material)))
       "Material.001" "Glass BSDF.001"
     = Some 1.3777%Q.
Proof. repeat split; vm_compute; reflexivity. Qed.

Ltac glass_done :=
  match goal with P := _ |- _ => subst P end; cbn;
  (split; [ reflexivity | ]); (split; [ | by split ]);
  eexists _, _, _; rewrite lookup_insert_eq; (split; [ reflexivity | ]); cbn;
  rewrite lookup_insert_eq; (split; [ reflexivity | ]); cbn;
  rewrite lookup_insert_eq; (split; [ reflexivity | ]);
  (split; [ reflexivity | ]);
  rewrite !lookup_insert_ne by done;
  (split; [ eassumption | ]); (split; [ eauto | ]); by left.

(** C10, as amended.  On a host that gives a new data-block or node the
    requested name when it is free, whose default node tree has a
    "Material Output" node with a "Surface" input and no "Glass BSDF"
    node, and for which "ShaderNodeBsdfGlass" is a node called
    "Glass BSDF" with an "IOR" input and a "BSDF" output: from every world
    in which a material called "Material.001", if there is one and it has
    a node tree, has in it no node called "Glass BSDF" and a
    "Material Output" node with a "Surface" input, lines 137-144 run to
    their end and leave, under the name "Material.001", a material with
    nodes enabled whose tree has a "Glass BSDF" node of type
    ShaderNodeBsdfGlass with IOR 1.3777, and a link from that node's
    "BSDF" output to the "Surface" input of "Material Output"; objects and
    everything outside bpy.data are left as they were. *)
Theorem glass_material_is_constructed :
  forall (E : Type) (api : BlenderAPI) (eh : ExtHandler E) (w : World E)
         (ins : gmap string (option Q)) (outs : list string) (v0 : Q),
    (forall taken name, name ∉ taken -> unique_name api taken name = name) ->
    (exists out, nodes (default_node_tree api) !! "Material Output" = Some out
                 /\ is_Some (inputs out !! "Surface")) ->
    nodes (default_node_tree api) !! "Glass BSDF" = None ->
    node_of_type api "ShaderNodeBsdfGlass" = Some ("Glass BSDF", ins, outs) ->
    ins !! "IOR" = Some (Some v0) ->
    "BSDF" ∈ outs ->
    (forall mat t,
        materials (blend w) !! "Material.001" = Some mat ->
        node_tree mat = Some t ->
        nodes t !! "Glass BSDF" = None
        /\ exists out, nodes t !! "Material Output" = Some out
                       /\ is_Some (inputs out !! "Surface")) ->
    let r := run (host api eh) (new_glass_material (glass_ior source_config)) w in
    outcome r = Done tt
    /\ (exists (t : NodeTree) (g out : Node),
          materials (blend (final r)) !! "Material.001"
          = Some {| use_nodes := true; node_tree := Some t |}
          /\ nodes t !! "Glass BSDF" = Some g
          /\ bl_idname g = "ShaderNodeBsdfGlass"
          /\ inputs g !! "IOR" = Some (Some 1.3777%Q)
          /\ nodes t !! "Material Output" = Some out
          /\ is_Some (inputs out !! "Surface")
          /\ {| from_node := "Glass BSDF"; from_socket := "BSDF";
                to_node := "Material Output"; to_socket := "Surface" |}
             ∈ links t)
    /\ objects (blend (final r)) = objects (blend w)
    /\ ext (final r) = ext w.
Proof.
  intros E api eh w ins outs v0 Hfresh (out & Hout & surf & Hsurf) Hnoglass
         Hglass Hior Hbsdf Hstate r.
  assert (Hnode : unique_name api (dom (nodes (default_node_tree api)))
                    "Glass BSDF" = "Glass BSDF")
    by (apply Hfresh; by apply not_elem_of_dom).
  destruct (materials (blend w) !! "Material.001") as [[u [t0 | ]] | ] eqn:Hmat.
  - destruct (Hstate _ _ eq_refl eq_refl)
      as (Hnoglass0 & out0 & Hout0 & surf0 & Hsurf0).
    assert (Hnode0 : unique_name api (dom (nodes t0)) "Glass BSDF"
                     = "Glass BSDF")
      by (apply Hfresh; by apply not_elem_of_dom).
    clear Hstate Hfresh.
    destruct (decide (unique_name api (dom (materials (blend w)))
                        "Material.001" = "Material.001")) as [Hname | Hname].
    + symbolic r P; repeat bpy_step. glass_done.
    + clear Hout Hsurf Hnoglass Hnode.
      symbolic r P; repeat bpy_step. glass_done.
  - clear Hstate Hfresh.
    destruct (decide (unique_name api (dom (materials (blend w)))
                        "Material.001" = "Material.001")) as [Hname | Hname];
      symbolic r P; repeat bpy_step; glass_done.
  - assert (Hname : unique_name api (dom (materials (blend w))) "Material.001"
                    = "Material.001")
      by (apply Hfresh; by apply not_elem_of_dom).
    clear Hstate Hfresh.
    symbolic r P; repeat bpy_step; glass_done.
Qed.

Lemma Studio_unique_name_free (taken : gset string) (name : string) :
  name ∉ taken -> Studio.next_free_name taken name = name.
Proof.
  intros Hfree. unfold Studio.next_free_name.
  by rewrite bool_decide_eq_false_2.
Qed.

Lemma glass_material_is_constructed_witness :
  (forall mat t,
      materials (blend Studio.initial_with_plain_material) !! "Material.001"
      = Some mat ->
      node_tree mat = Some t ->
      nodes t !! "Glass BSDF" = None
      /\ exists out, nodes t !! "Material Output" = Some out
                     /\ is_Some (inputs out !! "Surface"))
  /\ materials (blend Studio.initial_with_plain_material) !! "Material.001"
     = Some {| use_nodes := true; node_tree := Some Studio.factory_node_tree |}
  /\ outcome (run Studio.handle
                  (new_glass_material (glass_ior source_config))
                  Studio.initial_with_plain_material) = Done tt.
Proof.
  assert (Hstate : forall mat t,
             materials (blend Studio.initial_with_plain_material)
               !! "Material.001" = Some mat ->
             node_tree mat = Some t ->
             nodes t !! "Glass BSDF" = None
             /\ exists out, nodes t !! "Material Output" = Some out
                            /\ is_Some (inputs out !! "Surface")).
  { intros mat t Hmat Ht. vm_compute in Hmat. injection Hmat as <-.
    injection Ht as <-. split; [ vm_compute; reflexivity | ].
    eexists. split; [ vm_compute; reflexivity | ].
    eexists. vm_compute. reflexivity. }
  split; [ exact Hstate | ].
  split; [ vm_compute; reflexivity | ].
  refine (proj1
            (glass_material_is_constructed _ Studio.api Studio.handle_ext
               Studio.initial_with_plain_material
               (<["IOR" := Some 1.5%Q]>
                  (<["Roughness" := Some 0%Q]> (<["Color" := None]> ∅)))
               ["BSDF"] 1.5%Q Studio_unique_name_free _ _ _ _ _ Hstate)).
  - eexists. split; [ vm_compute; reflexivity | ].
    eexists. vm_compute. reflexivity.
  - vm_compute. reflexivity.
  - reflexivity.
  - vm_compute. reflexivity.
  - by left.
Defined.

(** When the name is held by a material without nodes, the new material
    is registered under the next free name and lines 138-144 act on the
    holder of the name. *)
Example studio_glass_material_name_taken :
  option_map use_nodes
    (materials
       (blend (final (run Studio.handle
                          (new_glass_material (glass_ior source_config))
                          Studio.initial_with_material_001)))
     !! "Material.001")
  = Some true
  /\ materials
       (blend (final (run Studio.handle
                          (new_glass_material (glass_ior source_config))
                          Studio.initial_with_material_001)))
     !! "Material.002"
     = Some {| use_nodes := false; node_tree := None |}.
Proof. split; vm_compute; reflexivity. Qed.

(** In the whole script on the small host: add_speckle has taken the name
    "Material", and the glass material ends up under "Material.001". *)
Example studio_glass_material :
  option_map use_nodes
    (materials
       (blend (final (run Studio.handle (script source_config) Studio.initial)))
     !! "Material.001")
  = Some true.
Proof. vm_compute. reflexivity. Qed.

(** * Further properties of the script

    Where each value the script holds comes from and where it goes, on
    every host. *)

(** Close one conjunct of a statement about an explicit trace. *)
Ltac settle :=
  first
    [ reflexivity
    | is_prefix
    | by left
    | solve [ right; repeat esplit ]
    | intros; first [ discriminate | reflexivity ] ].

Ltac flows P := subst P; cbn; repeat split; settle.

Ltac follow cfg P :=
  selector_cases cfg; repeat step_with ltac:(flows P); flows P.

(** ** The simulation data, from file to part (lines 33-82) *)

(** X1.  On every host each reader is asked for its data in the order the
    readers were made, each data set is scaled in the order it was read,
    and each render mesh is made from scaled data, never from the data as
    read: the k-th create_render_mesh call takes what the k-th
    scale_length_units call returned, which took what the k-th
    read_all_sim_data call returned, which was called on the k-th reader;
    every mesh is asked for with render keys (disp_y, disp_x), three
    spatial dimensions and displacement keys (disp_x, disp_y, disp_z); the
    k-th add_part call takes the k-th mesh; and a run that completes has
    made two of each. *)
Theorem render_meshes_are_made_from_scaled_data :
  forall (W : Type) (h : Handler W) (w : W) (cfg : Config),
    let r := run h (script cfg) w in
    read_requests (calls r)
    `prefix_of` refs_returned (is_callee "mh.ExodusReader") (trace r)
    /\ scale_sources (calls r)
       `prefix_of` refs_returned (is_callee "read_all_sim_data") (trace r)
    /\ mesh_requests (calls r)
       `prefix_of`
       map (fun scaled =>
              (scaled, ["disp_y"; "disp_x"], 3%Z, ["disp_x"; "disp_y"; "disp_z"]))
           (refs_returned (is_callee "sens.scale_length_units") (trace r))
    /\ part_requests (calls r)
       `prefix_of`
       map (fun mesh => (mesh, 3%Z))
           (refs_returned is_create_render_mesh (trace r))
    /\ (completed r = true ->
        length (refs_returned is_add_part (trace r)) = 2%nat).
Proof. intros W h w cfg r. symbolic r P. follow cfg P. Qed.

(** ** Nothing reaches Blender before the data is loaded (lines 33-78) *)

(** X2.  On every host, a run in which the script has called into Blender
    at all (the scene, its tools or bpy.data) is a run in which both
    render meshes had been made: when a simulation file cannot be read,
    scaled or skinned, no scene is created and bpy.data is not touched. *)
Theorem blender_untouched_until_meshes_exist :
  forall (W : Type) (h : Handler W) (w : W) (cfg : Config),
    let r := run h (script cfg) w in
    existsb touches_blender (calls r) = false
    \/ exists mesh1 mesh2,
         refs_returned is_create_render_mesh (trace r) = [mesh1; mesh2].
Proof. intros W h w cfg r. symbolic r P. follow cfg P. Qed.

(** ** One scene (lines 78-170) *)

(** X3.  On every host the script creates at most one scene, and every
    scene method it calls (add_part, add_stereo_system, add_light,
    add_speckle, render_deformed_images) is called on that scene; a run
    that completes has made six such calls. *)
Theorem every_scene_method_is_called_on_the_one_scene :
  forall (W : Type) (h : Handler W) (w : W) (cfg : Config),
    let r := run h (script cfg) w in
    (length (List.filter (is_callee "blender.Scene") (calls r)) <=? 1)%nat
    = true
    /\ (scenes_used (calls r) = []
        \/ exists scene,
             refs_returned (is_callee "blender.Scene") (trace r) = [scene]
             /\ scenes_used (calls r)
                = replicate (length (scenes_used (calls r))) scene)
    /\ (completed r = true -> length (scenes_used (calls r)) = 6%nat).
Proof. intros W h w cfg r. symbolic r P. follow cfg P. Qed.

(** ** The part and the window (lines 81-88, 131-134) *)

(** X4.  On every host, of the two objects add_part returned, only the
    second, window, is moved, to (0, 0, 200), and only the first, part, is
    rotated, by Euler angles xyz (0, 0, 0) in degrees, and given the
    speckle pattern; each of the three is done at most once. *)
Theorem window_is_moved_part_is_rotated_and_speckled :
  forall (W : Type) (h : Handler W) (w : W) (cfg : Config),
    let r := run h (script cfg) w in
    (moved (calls r) = []
     \/ exists part window,
          refs_returned is_add_part (trace r) = [part; window]
          /\ moved (calls r) = [(window, [0; 0; 200]%Z)])
    /\ (rotated (calls r) = []
        \/ exists part window,
             refs_returned is_add_part (trace r) = [part; window]
             /\ rotated (calls r)
                = [(part, from_euler "xyz" [0; 0; 0]%Q true)])
    /\ (speckled (calls r) = []
        \/ exists part window,
             refs_returned is_add_part (trace r) = [part; window]
             /\ speckled (calls r) = [part]).
Proof. intros W h w cfg r. symbolic r P. follow cfg P. Qed.

(** ** The stereo system and the render data (lines 99-112, 157-177) *)

(** X5.  On every host the stereo system that is added to the scene,
    whose calibration is saved and whose two cameras are read is the one
    the stereo constructor returned; RenderData is given the cameras read
    from that system's cam_data_0 and cam_data_1, in this order, with the
    configured thread and sample counts; the render data that is rendered
    from and whose base_dir is read is the one RenderData returned;
    rendering is asked for in three dimensions without staging; and what
    is printed is the base_dir read from the render data, extended by
    "blenderimages". *)
Theorem stereo_system_and_render_data_flow :
  forall (W : Type) (h : Handler W) (w : W) (cfg : Config),
    let r := run h (script cfg) w in
    (stereo_systems_used (calls r) = []
     \/ exists stereo,
          refs_returned is_stereo_constructor (trace r) = [stereo]
          /\ stereo_systems_used (calls r)
             = replicate (length (stereo_systems_used (calls r))) stereo)
    /\ (render_requests (calls r) = []
        \/ exists cam0 cam1,
             refs_returned (is_callee "stereo_system.cam_data_0") (trace r)
             = [cam0]
             /\ refs_returned (is_callee "stereo_system.cam_data_1") (trace r)
                = [cam1]
             /\ render_requests (calls r)
                = [(cam0, cam1, render_threads cfg, render_samples cfg)])
    /\ (render_data_used (calls r) = []
        \/ exists render_data,
             refs_returned (is_callee "blender.RenderData") (trace r)
             = [render_data]
             /\ render_data_used (calls r)
                = replicate (length (render_data_used (calls r))) render_data)
    /\ render_flags (calls r) `prefix_of` [(3%Z, false)]
    /\ printed (calls r)
       `prefix_of`
       map (fun dir =>
              ("Save directory of the image:", PathJoin dir "blenderimages"))
           (paths_returned (is_callee "render_data.base_dir") (trace r)).
Proof. intros W h w cfg r. symbolic r P. follow cfg P. Qed.

(** ** The light and the speckle (lines 114-134) *)


(** ** The wiring of the glass node (lines 137-144) *)

(** X7.  On every host every lookup in bpy.data.materials, and the one
    materials.new, names "Material.001"; nodes are enabled on what the
    lookup returned; the one node created is of type ShaderNodeBsdfGlass,
    and the configured index of refraction is written to the input "IOR"
    of the node that nodes.new returned.  The link, however, is made
    between the input "Surface" of the node looked up as "Material Output"
    and the output "BSDF" of the node looked up as "Glass BSDF": the output
    end is resolved by name, not taken from the node nodes.new returned. *)
Theorem glass_node_wiring :
  forall (W : Type) (h : Handler W) (w : W) (cfg : Config),
    let r := run h (script cfg) w in
    material_names (calls r)
    = replicate (length (material_names (calls r))) "Material.001"
    /\ use_nodes_set (calls r)
       `prefix_of`
       map (fun m => (m, true))
           (take 1 (drop 1 (names_returned (fun _ => true) (trace r))))
    /\ node_types_created (calls r) `prefix_of` ["ShaderNodeBsdfGlass"]
    /\ (default_values_set (calls r) = []
        \/ exists glass ior_socket,
             nodes_returned (is_callee "nodes.new") (trace r) = [glass]
             /\ head (socket_lookups (calls r)) = Some (glass, Input, "IOR")
             /\ head (sockets_returned (trace r)) = Some ior_socket
             /\ default_values_set (calls r) = [(ior_socket, glass_ior cfg)])
    /\ (links_requested (calls r) = []
        \/ exists glass output_node named_glass ior_socket inp outp,
             nodes_returned (is_callee "nodes.new") (trace r) = [glass]
             /\ node_lookups (calls r) = ["Material Output"; "Glass BSDF"]
             /\ nodes_returned (is_callee "nodes[]") (trace r)
                = [output_node; named_glass]
             /\ socket_lookups (calls r)
                = [ (glass, Input, "IOR"); (output_node, Input, "Surface");
                    (named_glass, Output, "BSDF") ]
             /\ sockets_returned (trace r) = [ior_socket; inp; outp]
             /\ links_requested (calls r) = [(inp, outp)]).
Proof. intros W h w cfg r. symbolic r P. follow cfg P. Qed.

(** ** What is written, and in which order (lines 112, 166-183) *)

(** X8.  On every host the script writes under the output directory at
    most three times and in this order: the calibration, the rendered
    images, the Blender project file; each is attempted only when the one
    before it succeeded; the project file is saved with override=True; and
    a run that completes has written all three. *)
Theorem outputs_are_written_once_and_in_order :
  forall (W : Type) (h : Handler W) (w : W) (cfg : Config),
    let r := run h (script cfg) w in
    map fst (outputs_written (trace r))
    `prefix_of` [ "stereo_system.save_calibration";
                  "scene.render_deformed_images";
                  "blender.Tools.save_blender_file" ]
    /\ forallb snd (removelast (outputs_written (trace r))) = true
    /\ forallb snd (blend_saves (calls r)) = true
    /\ (completed r = true ->
        outputs_written (trace r)
        = [ ("stereo_system.save_calibration", true);
            ("scene.render_deformed_images", true);
            ("blender.Tools.save_blender_file", true) ]).
Proof. intros W h w cfg r. symbolic r P. follow cfg P. Qed.

(** ** Everything up to the renderer ignores the render settings
       (lines 33-161) *)

Lemma run_vis_trace {W R : Type} (h : Handler W) (c : Call)
    (k : Res c -> Prog R) (w : W) :
  exists ev t, trace (run h (Vis c k) w) = ev :: t /\ ev_call ev = c.
Proof.
  simpl. destruct (h c w) as [[e | x] w'].
  - by eexists _, _.
  - destruct (run h (k x) w'); simpl. by eexists _, _.
Qed.

Lemma before_render_data_stop {W : Type} (l t : list (Event W)) (ev : Event W) :
  forallb (fun ev => negb (is_callee "blender.RenderData" (ev_call ev))) l
  = true ->
  is_callee "blender.RenderData" (ev_call ev) = true ->
  before_render_data (l ++ ev :: t) = l.
Proof.
  intros Hl Hev. induction l as [ | ev' l IH]; simpl in *.
  - by rewrite Hev.
  - apply andb_prop in Hl as [Hev' Hl].
    destruct (is_callee "blender.RenderData" (ev_call ev')); [ done | ].
    by rewrite IH.
Qed.

Lemma before_render_data_at_call {W R : Type} (h : Handler W)
    (l : list (Event W)) (c : Call) (k : Res c -> Prog R) (w : W) :
  forallb (fun ev => negb (is_callee "blender.RenderData" (ev_call ev))) l
  = true ->
  is_callee "blender.RenderData" c = true ->
  before_render_data (l ++ trace (run h (Vis c k) w)) = l.
Proof.
  intros Hl Hc. destruct (run_vis_trace h c k w) as (ev & t & -> & <-).
  by apply before_render_data_stop.
Qed.

(** X9.  On every host, two runs from the same world whose configurations
    differ at most in the thread and sample counts are the same run up to
    the RenderData call: the data loaded, the scene, the cameras, the
    calibration, the light, the speckle and the glass material do not
    depend on the render settings. *)
Theorem render_settings_reach_only_the_renderer :
  forall (W : Type) (h : Handler W) (w : W) (cfg1 cfg2 : Config),
    stereo_setup cfg1 = stereo_setup cfg2 ->
    cam_spec cfg1 = cam_spec cfg2 ->
    light_spec cfg1 = light_spec cfg2 ->
    glass_ior cfg1 = glass_ior cfg2 ->
    let r1 := run h (script cfg1) w in
    let r2 := run h (script cfg2) w in
    before_render_data (trace r1) = before_render_data (trace r2).
Proof.
  intros W h w cfg1 cfg2 Hsel Hcam Hlight Hior r1 r2.
  destruct cfg1 as [s1 cam1 l1 i1 n1 m1], cfg2 as [s2 cam2 l2 i2 n2 m2].
  cbn in Hsel, Hcam, Hlight, Hior. subst s2 cam2 l2 i2. symbolic2 r1 r2 P.
  destruct (String.eqb_spec s1 "symmetric");
    [ | destruct (String.eqb_spec s1 "faceon") ];
    repeat step2_with ltac:(by subst P; cbn);
    subst P; cbn beta; rewrite ?trace_resume;
    first
      [ by cbn
      | etransitivity;
        [ apply before_render_data_at_call; reflexivity
        | symmetry; apply before_render_data_at_call; reflexivity ] ].
Qed.

Lemma render_settings_reach_only_the_renderer_witness :
  render_threads source_config <> render_threads Studio.quick_render_config
  /\ before_render_data
       (trace (run Studio.handle (script source_config) Studio.initial))
     = before_render_data
         (trace (run Studio.handle (script Studio.quick_render_config)
                     Studio.initial)).
Proof.
  split; [ discriminate | ].
  exact (render_settings_reach_only_the_renderer _ Studio.handle
           Studio.initial source_config Studio.quick_render_config
           eq_refl eq_refl eq_refl eq_refl).
Defined.

(** ** The unit scaling (lines 46-52) *)

(** X10.  On every host the script scales lengths at most twice, each
    time by 1000.0 and for the displacement components disp_x, disp_y and
    disp_z, and never by any other factor; a run that completes has scaled
    both data sets. *)
Theorem both_data_sets_are_scaled_by_1000 :
  forall (W : Type) (h : Handler W) (w : W) (cfg : Config),
    let r := run h (script cfg) w in
    scalings (calls r)
    `prefix_of` [ (1000.0%Q, ["disp_x"; "disp_y"; "disp_z"]);
                  (1000.0%Q, ["disp_x"; "disp_y"; "disp_z"]) ]
    /\ (completed r = true ->
        scalings (calls r)
        = [ (1000.0%Q, ["disp_x"; "disp_y"; "disp_z"]);
            (1000.0%Q, ["disp_x"; "disp_y"; "disp_z"]) ]
        /\ length (refs_returned (is_callee "sens.scale_length_units")
                     (trace r)) = 2%nat).
Proof. intros W h w cfg r. symbolic r P. follow cfg P. Qed.
